(** * hori.c: the Hori/Namco Flightstick USB driver

    A shallow embedding of [hori.c].  The driver owns two URBs: the interrupt
    URB ([hori->urb], completion handler [hori_usb_irq]) and the control URB
    ([hori->urb_ctl]) that ping-pongs between the two vendor requests
    [HORI_POLL_VR0] and [HORI_POLL_VR1].

    The C functions are written in a small monad that threads [kernel] (the
    driver's [struct hori], which URBs are in flight, and the values the next
    [usb_submit_urb] calls return) and collects, in order, the calls the
    driver makes into the kernel: input events, log lines, submissions,
    cancellations and mutex operations. *)

From Stdlib Require Import ZArith List Bool String Lia.
From Stdlib Require Import Strings.Byte.
Import ListNotations.
Local Open Scope string_scope.
Local Open Scope list_scope.
Local Open Scope Z_scope.

(** ** Constants of the kernel headers *)

(** Error numbers as in [include/uapi/asm-generic/errno-base.h] and
    [errno.h].  The handlers only compare against them; what matters below is
    that they are positive and pairwise distinct. *)
Module Errno.
Definition EPERM        : Z := 1.
Definition ENOENT       : Z := 2.
Definition EIO          : Z := 5.
Definition ENXIO        : Z := 6.
Definition ENOEXEC      : Z := 8.
Definition ENOMEM       : Z := 12.
Definition EBUSY        : Z := 16.
Definition EXDEV        : Z := 18.
Definition ENODEV       : Z := 19.
Definition EINVAL       : Z := 22.
Definition EFBIG        : Z := 27.
Definition ENOSPC       : Z := 28.
Definition EPIPE        : Z := 32.
Definition EBADR        : Z := 53.
Definition ETIME        : Z := 62.
Definition EMSGSIZE     : Z := 90.
Definition ECONNRESET   : Z := 104.
Definition ESHUTDOWN    : Z := 108.
Definition EHOSTUNREACH : Z := 113.
End Errno.
Import Errno.

Definition HORI_POLL_VR0 : Z := 0x00.
Definition HORI_POLL_VR1 : Z := 0x01.

(** [USB_DIR_IN | USB_TYPE_VENDOR | USB_RECIP_ENDPOINT] *)
Definition USB_DIR_IN         : Z := 0x80.
Definition USB_TYPE_VENDOR    : Z := 0x40.
Definition USB_RECIP_ENDPOINT : Z := 0x02.

(** Event codes the driver reports. *)
Inductive abs_code :=
| ABS_X | ABS_Y | ABS_Z | ABS_RX | ABS_RY | ABS_RZ | ABS_THROTTLE | ABS_RUDDER.

Inductive key_code :=
| BTN_TRIGGER_HAPPY1 | BTN_TRIGGER_HAPPY2 | BTN_TRIGGER_HAPPY3
| BTN_TRIGGER_HAPPY4 | BTN_TRIGGER_HAPPY5 | BTN_TRIGGER_HAPPY6
| BTN_TRIGGER_HAPPY7 | BTN_TRIGGER_HAPPY8
| BTN_TRIGGER | BTN_THUMB | BTN_THUMB2
| BTN_A | BTN_B | BTN_C | BTN_X | BTN_Y.

Inductive gfp := GFP_KERNEL | GFP_ATOMIC.

(** [dev_dbg], [dev_warn], [dev_err] *)
Inductive loglevel := KERN_DEBUG | KERN_WARNING | KERN_ERR.

(** ** Data of the driver *)

(** [struct hori_raw_input_vr_00]: sixteen one-bit fields.  A bit is [true]
    when the wire bit is 1; the controls are active-low. *)
Record hori_raw_input_vr_00 := {
  fire_c : bool; button_d : bool; hat : bool; button_st : bool;
  dpad1_top : bool; dpad1_right : bool; dpad1_bottom : bool; dpad1_left : bool;
  vr0_reserved1 : bool; vr0_reserved2 : bool;
  vr0_reserved3 : bool; vr0_reserved4 : bool;
  vr0_reserved5 : bool; launch : bool; trigger : bool; vr0_reserved6 : bool
}.

(** [struct hori_raw_input_vr_01]; [mode_select] is a two-bit field. *)
Record hori_raw_input_vr_01 := {
  vr1_reserved1 : bool; vr1_reserved2 : bool;
  vr1_reserved3 : bool; vr1_reserved4 : bool;
  dpad3_right : bool; dpad3_middle : bool; dpad3_left : bool;
  vr1_reserved5 : bool;
  mode_select : Z; vr1_reserved6 : bool; button_sw1 : bool;
  dpad2_top : bool; dpad2_right : bool; dpad2_bottom : bool; dpad2_left : bool
}.

(** [sizeof(hori->vr0)] and [sizeof(hori->vr1)]: sixteen bits each. *)
Definition sizeof_vr0 : Z := 2.
Definition sizeof_vr1 : Z := 2.

Record usb_ctrlrequest := {
  bRequestType : Z; bRequest : Z; wValue : Z; wIndex : Z; wLength : Z
}.

(** The two URBs of a session. *)
Inductive urb_id := URB_IRQ | URB_CTL.

(** The completion handlers [usb_fill_control_urb] installs in
    [hori->urb_ctl], and the buffers it points the URB at. *)
Inductive completion_fn := Hori_poll_vr0_complete | Hori_poll_vr1_complete.
Inductive ctl_buffer := Buf_vr0 | Buf_vr1.

(** What [usb_fill_control_urb] writes into [hori->urb_ctl]. *)
Record ctl_urb := {
  complete : completion_fn;
  transfer_buffer_ref : ctl_buffer;
  transfer_buffer_length : Z
}.

(** The fields of [struct hori] the code reads or writes after probe.
    [urb_ctl] is [None] until the control URB is filled for the first time. *)
Record hori := {
  is_open : bool;
  ctl_req : usb_ctrlrequest;
  vr0 : hori_raw_input_vr_00;
  vr1 : hori_raw_input_vr_01;
  urb_ctl : option ctl_urb
}.

(** What a completion handler reads of the [struct urb] it is handed.  For
    the control URB the buffer is [hori->vr0] or [hori->vr1] itself, so
    [transfer_buffer] only matters for the interrupt URB. *)
Record urb := {
  status : Z;
  actual_length : Z;
  transfer_buffer : list byte
}.

(** ** Calls into the kernel *)

Inductive log_arg := ArgInt (n : Z) | ArgStr (s : string).

Inductive call :=
| InputReportAbs (code : abs_code) (value : Z)
| InputReportKey (code : key_code) (value : bool)
| InputSync
| DevPrintk (level : loglevel) (func : string) (fmt : string)
            (args : list log_arg)
| UsbSubmitUrb (u : urb_id) (mem_flags : gfp) (setup : option usb_ctrlrequest)
| UsbKillUrb (u : urb_id)
| MutexLock
| MutexUnlock.

(** The driver together with what it can observe of the kernel.
    [submit_results] lists what the coming [usb_submit_urb] calls return, in
    order; when the list is used up they return 0.  [irq_in_flight] and
    [ctl_in_flight] say whether the URB is submitted and not yet completed or
    cancelled. *)
Record kernel := {
  dev : hori;
  submit_results : list Z;
  irq_in_flight : bool;
  ctl_in_flight : bool
}.

(** ** The monad *)

(** A computation returns its value, the new state and the calls it made,
    oldest first. *)
Definition M (A : Type) : Type := kernel -> A * kernel * list call.

Definition ret {A} (a : A) : M A := fun k => (a, k, []).
Definition bind {A B} (m : M A) (f : A -> M B) : M B :=
  fun k =>
    let '(a, k1, c1) := m k in
    let '(b, k2, c2) := f a k1 in
    (b, k2, c1 ++ c2).

Declare Scope drv_scope.
Delimit Scope drv_scope with drv.
Notation "x <- m ;; f" := (bind m (fun x => f))
  (at level 61, m at next level, right associativity) : drv_scope.
Notation "m ;; f" := (bind m (fun _ => f))
  (at level 61, right associativity) : drv_scope.
Local Open Scope drv_scope.

Definition result {A} (m : M A) (k : kernel) : A := fst (fst (m k)).
Definition exec {A} (m : M A) (k : kernel) : kernel := snd (fst (m k)).
Definition made {A} (m : M A) (k : kernel) : list call := snd (m k).

Definition get_dev : M hori := fun k => (dev k, k, []).

Definition set_dev (h : hori) : M unit := fun k =>
  (tt, {| dev := h; submit_results := submit_results k;
          irq_in_flight := irq_in_flight k;
          ctl_in_flight := ctl_in_flight k |}, []).

Definition emit (c : call) : M unit := fun k => (tt, k, [c]).

Definition set_in_flight (u : urb_id) (b : bool) : M unit := fun k =>
  (tt, {| dev := dev k; submit_results := submit_results k;
          irq_in_flight := match u with URB_IRQ => b | _ => irq_in_flight k end;
          ctl_in_flight := match u with URB_CTL => b | _ => ctl_in_flight k end
       |}, []).

Definition next_submit_result : M Z := fun k =>
  match submit_results k with
  | [] => (0, k, [])
  | r :: rest =>
      (r, {| dev := dev k; submit_results := rest;
             irq_in_flight := irq_in_flight k;
             ctl_in_flight := ctl_in_flight k |}, [])
  end.

(** ** Kernel services the driver calls *)

Definition input_report_abs (code : abs_code) (value : Z) : M unit :=
  emit (InputReportAbs code value).

Definition input_report_key (code : key_code) (value : bool) : M unit :=
  emit (InputReportKey code value).

Definition input_sync : M unit := emit InputSync.

Definition dev_dbg (func fmt : string) (args : list log_arg) : M unit :=
  emit (DevPrintk KERN_DEBUG func fmt args).
Definition dev_warn (func fmt : string) (args : list log_arg) : M unit :=
  emit (DevPrintk KERN_WARNING func fmt args).
Definition dev_err (func fmt : string) (args : list log_arg) : M unit :=
  emit (DevPrintk KERN_ERR func fmt args).

(** [usb_submit_urb]: the call is recorded with the setup packet the control
    URB carries at that moment; the URB is in flight when the call
    returns 0. *)
Definition usb_submit_urb (u : urb_id) (mem_flags : gfp) : M Z :=
  h <- get_dev ;;
  emit (UsbSubmitUrb u mem_flags
          match u with URB_CTL => Some (ctl_req h) | URB_IRQ => None end) ;;
  r <- next_submit_result ;;
  (if r =? 0 then set_in_flight u true else ret tt) ;;
  ret r.

(** [usb_kill_urb]: returns once the URB is no longer in flight. *)
Definition usb_kill_urb (u : urb_id) : M unit :=
  emit (UsbKillUrb u) ;;
  set_in_flight u false.

Definition mutex_lock : M unit := emit MutexLock.
Definition mutex_unlock : M unit := emit MutexUnlock.

(** [guard(mutex)(&hori->pm_mutex)]: the lock is held to the end of the
    enclosing function body, on every return path. *)
Definition guard_mutex {A} (body : M A) : M A :=
  mutex_lock ;;
  r <- body ;;
  mutex_unlock ;;
  ret r.

(** ** The driver *)

Definition set_ctl_req (h : hori) (req len : Z) : hori :=
  {| is_open := is_open h;
     ctl_req := {| bRequestType := bRequestType (ctl_req h);
                   bRequest := req;
                   wValue := wValue (ctl_req h);
                   wIndex := wIndex (ctl_req h);
                   wLength := len |};
     vr0 := vr0 h; vr1 := vr1 h; urb_ctl := urb_ctl h |}.

Definition set_urb_ctl (h : hori) (c : ctl_urb) : hori :=
  {| is_open := is_open h; ctl_req := ctl_req h;
     vr0 := vr0 h; vr1 := vr1 h; urb_ctl := Some c |}.

Definition set_is_open (h : hori) (b : bool) : hori :=
  {| is_open := b; ctl_req := ctl_req h;
     vr0 := vr0 h; vr1 := vr1 h; urb_ctl := urb_ctl h |}.

(** The [ERRCASE] switch of [hori_urb_error]. *)
Definition errcode_of (error : Z) : string :=
  if error =? - ENOMEM then "ENOMEM"
  else if error =? - EBUSY then "EBUSY"
  else if error =? - ENODEV then "ENODEV"
  else if error =? - ENOENT then "ENOENT"
  else if error =? - ENXIO then "ENXIO"
  else if error =? - EINVAL then "EINVAL"
  else if error =? - EXDEV then "EXDEV"
  else if error =? - EFBIG then "EFBIG"
  else if error =? - EPIPE then "EPIPE"
  else if error =? - EMSGSIZE then "EMSGSIZE"
  else if error =? - ENOSPC then "ENOSPC"
  else if error =? - ESHUTDOWN then "ESHUTDOWN"
  else if error =? - EPERM then "EPERM"
  else if error =? - EHOSTUNREACH then "EHOSTUNREACH"
  else if error =? - ENOEXEC then "ENOEXEC"
  else if error =? - EBADR then "EBADR"
  else "Unknown".

Definition hori_urb_error (error : Z) : M unit :=
  dev_err "hori_urb_error"
          "%s - usb_submit_urb failed with result: %d (%s)"
          [ArgInt error; ArgStr (errcode_of error)].

(** [if (error && error != -EPERM) hori_urb_error(...)] *)
Definition report_submit_error (error : Z) : M unit :=
  if negb (error =? 0) && negb (error =? - EPERM)
  then hori_urb_error error
  else ret tt.

Definition hori_poll_vr0 : M unit :=
  h <- get_dev ;;
  set_dev (set_urb_ctl (set_ctl_req h HORI_POLL_VR0 sizeof_vr0)
             {| complete := Hori_poll_vr0_complete;
                transfer_buffer_ref := Buf_vr0;
                transfer_buffer_length := sizeof_vr0 |}) ;;
  error <- usb_submit_urb URB_CTL GFP_KERNEL ;;
  report_submit_error error.

Definition hori_poll_vr1 : M unit :=
  h <- get_dev ;;
  set_dev (set_urb_ctl (set_ctl_req h HORI_POLL_VR1 sizeof_vr1)
             {| complete := Hori_poll_vr1_complete;
                transfer_buffer_ref := Buf_vr1;
                transfer_buffer_length := sizeof_vr1 |}) ;;
  error <- usb_submit_urb URB_CTL GFP_KERNEL ;;
  report_submit_error error.

Definition hori_poll_vr0_complete (u : urb) : M unit :=
  let exit2 := hori_poll_vr1 in
  if status u =? 0 then
    h <- get_dev ;;
    input_report_key BTN_TRIGGER_HAPPY1 (negb (fire_c (vr0 h))) ;;
    input_report_key BTN_TRIGGER_HAPPY2 (negb (button_d (vr0 h))) ;;
    input_report_key BTN_TRIGGER_HAPPY3 (negb (hat (vr0 h))) ;;
    input_report_key BTN_TRIGGER_HAPPY4 (negb (button_st (vr0 h))) ;;
    input_report_key BTN_TRIGGER_HAPPY5 (negb (dpad1_top (vr0 h))) ;;
    input_report_key BTN_TRIGGER_HAPPY6 (negb (dpad1_right (vr0 h))) ;;
    input_report_key BTN_TRIGGER_HAPPY7 (negb (dpad1_bottom (vr0 h))) ;;
    input_report_key BTN_TRIGGER_HAPPY8 (negb (dpad1_left (vr0 h))) ;;
    input_report_key BTN_THUMB (negb (launch (vr0 h))) ;;
    input_report_key BTN_TRIGGER (negb (trigger (vr0 h))) ;;
    input_sync ;;
    exit2
  else if status u =? - ETIME then
    dev_warn "hori_poll_vr0_complete"
             "%s - urb timed out - was the device unplugged?" []
  else if status u =? - EPIPE then
    exit2
  else if (status u =? - ECONNRESET) || (status u =? - ENOENT)
          || (status u =? - ESHUTDOWN) then
    dev_warn "hori_poll_vr0_complete"
             "%s - urb shutting down with status: %d" [ArgInt (status u)]
  else
    dev_err "hori_poll_vr0_complete"
            "%s - nonzero urb status received: %d" [ArgInt (status u)] ;;
    exit2.

(** The two ternaries of [hori_poll_vr1_complete]:
    [!first ? 0 : !second ? 2 : 1]. *)
Definition pad_axis (first second : bool) : Z :=
  if negb first then 0 else if negb second then 2 else 1.

Definition hori_poll_vr1_complete (u : urb) : M unit :=
  let exit3 := hori_poll_vr0 in
  if status u =? 0 then
    h <- get_dev ;;
    input_report_key BTN_THUMB2 (negb (dpad3_right (vr1 h))) ;;
    input_report_key BTN_C (negb (dpad3_middle (vr1 h))) ;;
    input_report_key BTN_X (negb (dpad3_left (vr1 h))) ;;
    input_report_key BTN_Y (negb (button_sw1 (vr1 h))) ;;
    input_report_abs ABS_Z
      (pad_axis (dpad2_left (vr1 h)) (dpad2_right (vr1 h))) ;;
    input_report_abs ABS_RZ
      (pad_axis (dpad2_top (vr1 h)) (dpad2_bottom (vr1 h))) ;;
    input_sync ;;
    exit3
  else if status u =? - ETIME then
    dev_warn "hori_poll_vr1_complete"
             "%s - urb timed out - was the device unplugged?" []
  else if status u =? - EPIPE then
    exit3
  else if (status u =? - ECONNRESET) || (status u =? - ENOENT)
          || (status u =? - ESHUTDOWN) then
    dev_warn "hori_poll_vr1_complete"
             "%s - urb shutting down with status: %d" [ArgInt (status u)]
  else
    dev_err "hori_poll_vr1_complete"
            "%s - nonzero urb status received: %d" [ArgInt (status u)] ;;
    exit3.

(** [data[i]], a [u8] promoted to [int].  [transfer_buffer] is the whole
    buffer of [usb_endpoint_maxp] bytes; the handler indexes it only when
    [actual_length] is 8, which the USB core never reports for a shorter
    buffer.  Past the end the model reads 0. *)
Definition data_at (data : list byte) (i : nat) : Z :=
  Z.of_N (Byte.to_N (nth i data x00)).

Definition hori_usb_irq (u : urb) : M unit :=
  let data := transfer_buffer u in
  let exit :=
    error <- usb_submit_urb URB_IRQ GFP_ATOMIC ;;
    report_submit_error error in
  if status u =? 0 then
    (if actual_length u =? 8 then
       input_report_abs ABS_X (data_at data 0) ;;
       input_report_abs ABS_Y (data_at data 1) ;;
       input_report_abs ABS_RUDDER (data_at data 2) ;;
       input_report_abs ABS_RX (data_at data 3) ;;
       input_report_abs ABS_RY (data_at data 4) ;;
       input_report_abs ABS_THROTTLE (data_at data 5) ;;
       input_report_key BTN_A (data_at data 6 <? 0xc0) ;;
       input_report_key BTN_B (data_at data 7 <? 0xc0) ;;
       input_sync
     else
       dev_warn "hori_usb_irq" "%s - urb->actual_length == %d"
                [ArgInt (actual_length u)]) ;;
    exit
  else if status u =? - ETIME then
    dev_dbg "hori_usb_irq"
            "%s - urb timed out - was the device unplugged?" []
  else if (status u =? - ECONNRESET) || (status u =? - ENOENT)
          || (status u =? - ESHUTDOWN) || (status u =? - EPIPE) then
    dev_dbg "hori_usb_irq"
            "%s - urb shutting down with status: %d" [ArgInt (status u)]
  else
    dev_dbg "hori_usb_irq"
            "%s - nonzero urb status received: %d" [ArgInt (status u)] ;;
    exit.

Definition hori_open : M Z :=
  guard_mutex (
    error <- usb_submit_urb URB_IRQ GFP_KERNEL ;;
    if negb (error =? 0) then
      dev_err "hori_open" "%s - usb_submit_urb failed, error: %d"
              [ArgInt error] ;;
      ret (- EIO)
    else
      h <- get_dev ;;
      set_dev (set_is_open h true) ;;
      hori_poll_vr0 ;;
      ret 0).

Definition hori_close : M unit :=
  dev_warn "hori_close" "%s - usb_kill_urb" [] ;;
  guard_mutex (
    usb_kill_urb URB_IRQ ;;
    usb_kill_urb URB_CTL ;;
    h <- get_dev ;;
    set_dev (set_is_open h false)).

Definition hori_suspend : M Z :=
  dev_warn "hori_suspend" "%s - usb_kill_urb" [] ;;
  guard_mutex (
    h <- get_dev ;;
    (if is_open h then
       usb_kill_urb URB_IRQ ;;
       usb_kill_urb URB_CTL
     else ret tt) ;;
    ret 0).

(** [hori->is_open && usb_submit_urb(hori->urb, GFP_KERNEL) < 0]: the
    submission is only made when the session is open. *)
Definition open_and_resubmit_failed : M bool :=
  h <- get_dev ;;
  if is_open h then
    r <- usb_submit_urb URB_IRQ GFP_KERNEL ;;
    ret (r <? 0)
  else ret false.

Definition hori_resume : M Z :=
  guard_mutex (
    failed <- open_and_resubmit_failed ;;
    if failed then ret (- EIO)
    else
      h <- get_dev ;;
      (if is_open h then hori_poll_vr0 else ret tt) ;;
      ret 0).

Definition hori_pre_reset : M Z :=
  dev_warn "hori_pre_reset" "%s - usb_kill_urb" [] ;;
  mutex_lock ;;
  usb_kill_urb URB_IRQ ;;
  usb_kill_urb URB_CTL ;;
  ret 0.

Definition hori_post_reset : M Z :=
  failed <- open_and_resubmit_failed ;;
  let retval := if failed then - EIO else 0 in
  h <- get_dev ;;
  (if is_open h then hori_poll_vr0 else ret tt) ;;
  mutex_unlock ;;
  ret retval.

Definition hori_reset_resume : M Z := hori_resume.

(** The session as [hori_probe] leaves it: [devm_kzalloc] zeroes the
    structure, then the fixed fields of the setup packet are written. *)
Definition vr0_zero : hori_raw_input_vr_00 :=
  {| fire_c := false; button_d := false; hat := false; button_st := false;
     dpad1_top := false; dpad1_right := false; dpad1_bottom := false;
     dpad1_left := false;
     vr0_reserved1 := false; vr0_reserved2 := false; vr0_reserved3 := false;
     vr0_reserved4 := false; vr0_reserved5 := false;
     launch := false; trigger := false; vr0_reserved6 := false |}.

Definition vr1_zero : hori_raw_input_vr_01 :=
  {| vr1_reserved1 := false; vr1_reserved2 := false; vr1_reserved3 := false;
     vr1_reserved4 := false;
     dpad3_right := false; dpad3_middle := false; dpad3_left := false;
     vr1_reserved5 := false; mode_select := 0; vr1_reserved6 := false;
     button_sw1 := false;
     dpad2_top := false; dpad2_right := false; dpad2_bottom := false;
     dpad2_left := false |}.

Definition probed : hori :=
  {| is_open := false;
     ctl_req := {| bRequestType :=
                     Z.lor USB_DIR_IN (Z.lor USB_TYPE_VENDOR USB_RECIP_ENDPOINT);
                   bRequest := HORI_POLL_VR0;
                   wValue := 0; wIndex := 1; wLength := sizeof_vr0 |};
     vr0 := vr0_zero; vr1 := vr1_zero; urb_ctl := None |}.

Definition boot (results : list Z) : kernel :=
  {| dev := probed; submit_results := results;
     irq_in_flight := false; ctl_in_flight := false |}.

(** ** The USB core side of the control URB *)

(** A completed control URB is handed to the handler stored in it; only an
    URB in flight completes, and it is no longer in flight when its handler
    runs.  The report structures keep what the device wrote last. *)
Definition ctl_complete (u : urb) : M unit :=
  fun k =>
    if ctl_in_flight k then
      (set_in_flight URB_CTL false ;;
       h <- get_dev ;;
       match urb_ctl h with
       | Some c =>
           match complete c with
           | Hori_poll_vr0_complete => hori_poll_vr0_complete u
           | Hori_poll_vr1_complete => hori_poll_vr1_complete u
           end
       | None => ret tt
       end) k
    else ret tt k.

Fixpoint ctl_completions (us : list urb) : M unit :=
  match us with
  | [] => ret tt
  | u :: rest => ctl_complete u ;; ctl_completions rest
  end.

(** The control poll chain: started by [hori_poll_vr0], as [hori_open],
    [hori_resume] and [hori_post_reset] do, then driven by completions. *)
Definition poll_chain (us : list urb) : M unit :=
  hori_poll_vr0 ;; ctl_completions us.

(** ** Vocabulary of the specification *)

(** The five classes of a completion status.  The poll handlers' switch
    separates exactly these: 0, [-ETIME] (timing out), [-EPIPE] (stalled),
    [-ECONNRESET], [-ENOENT], [-ESHUTDOWN] (terminated), anything else. *)
Inductive status_class :=
| SUCCESS | TRANSIENT_TIMEOUT | TERMINATED | PROTOCOL_STALL | UNEXPECTED.

Definition classify (st : Z) : status_class :=
  if st =? 0 then SUCCESS
  else if st =? - ETIME then TRANSIENT_TIMEOUT
  else if st =? - EPIPE then PROTOCOL_STALL
  else if (st =? - ECONNRESET) || (st =? - ENOENT) || (st =? - ESHUTDOWN)
  then TERMINATED
  else UNEXPECTED.

(** The statuses after which the specification lets a chain go on. *)
Definition continues (st : Z) : bool :=
  match classify st with
  | SUCCESS | PROTOCOL_STALL | UNEXPECTED => true
  | TRANSIENT_TIMEOUT | TERMINATED => false
  end.

Inductive phase := PHASE_A | PHASE_B.

Definition other (p : phase) : phase :=
  match p with PHASE_A => PHASE_B | PHASE_B => PHASE_A end.

Definition request_of (p : phase) : Z :=
  match p with PHASE_A => HORI_POLL_VR0 | PHASE_B => HORI_POLL_VR1 end.

Definition handler_of (p : phase) : completion_fn :=
  match p with
  | PHASE_A => Hori_poll_vr0_complete
  | PHASE_B => Hori_poll_vr1_complete
  end.

(** [alternation p n] is p, other p, p, ... of length [n]. *)
Fixpoint alternation (p : phase) (n : nat) : list phase :=
  match n with
  | O => []
  | S n' => p :: alternation (other p) n'
  end.

(** The number of completions before the first one that does not continue. *)
Fixpoint leading (us : list urb) : nat :=
  match us with
  | [] => O
  | u :: rest => if continues (status u) then S (leading rest) else O
  end.

(** The pad rule in the specification's words: low edge active gives 0,
    high edge active gives 2, otherwise 1; the low edge is looked at first. *)
Definition ternary_pad (low_active high_active : bool) : Z :=
  if low_active then 0 else if high_active then 2 else 1.

(** Active-low: the control is active when its wire bit is 0. *)
Definition active (bit : bool) : bool := negb bit.

(** ** Reading a list of calls *)

Definition is_input (c : call) : bool :=
  match c with
  | InputReportAbs _ _ | InputReportKey _ _ | InputSync => true
  | _ => false
  end.

Definition is_submit (u : urb_id) (c : call) : bool :=
  match c, u with
  | UsbSubmitUrb URB_IRQ _ _, URB_IRQ => true
  | UsbSubmitUrb URB_CTL _ _, URB_CTL => true
  | _, _ => false
  end.

Definition is_transfer_op (c : call) : bool :=
  match c with
  | UsbSubmitUrb _ _ _ | UsbKillUrb _ => true
  | _ => false
  end.

(** The input events published, in order. *)
Definition published (cs : list call) : list call := filter is_input cs.

(** The submissions of one URB. *)
Definition submissions (u : urb_id) (cs : list call) : list call :=
  filter (is_submit u) cs.

(** Submissions and cancellations. *)
Definition transfer_ops (cs : list call) : list call :=
  filter is_transfer_op cs.

(** The request codes of the control submissions, in order. *)
Fixpoint ctl_requests (cs : list call) : list Z :=
  match cs with
  | [] => []
  | UsbSubmitUrb URB_CTL _ (Some req) :: rest => bRequest req :: ctl_requests rest
  | _ :: rest => ctl_requests rest
  end.

(** The levels of the log lines written. *)
Fixpoint log_levels (cs : list call) : list loglevel :=
  match cs with
  | [] => []
  | DevPrintk lvl _ _ _ :: rest => lvl :: log_levels rest
  | _ :: rest => log_levels rest
  end.

(** Every coming submission succeeds. *)
Definition submits_succeed (k : kernel) : Prop :=
  Forall (fun r => r = 0) (submit_results k).

(** What the first coming [usb_submit_urb] returns. *)
Definition first_submit_result (k : kernel) : Z := hd 0 (submit_results k).

(** ** States and values used in the statements *)

(** A session that was opened, with its two transfers running. *)
Definition opened (results : list Z) : kernel :=
  {| dev := set_urb_ctl (set_is_open probed true)
              {| complete := Hori_poll_vr0_complete;
                 transfer_buffer_ref := Buf_vr0;
                 transfer_buffer_length := sizeof_vr0 |};
     submit_results := results;
     irq_in_flight := true; ctl_in_flight := true |}.

(** The buffer of the specification's scenario. *)
Definition scenario_buffer : list byte :=
  [x0a; x14; x1e; x28; x32; x3c; xff; x00].

(** The events [hori_poll_vr0_complete] reports for a poll-A report. *)
Definition vr0_events (r : hori_raw_input_vr_00) : list call :=
  [InputReportKey BTN_TRIGGER_HAPPY1 (active (fire_c r));
   InputReportKey BTN_TRIGGER_HAPPY2 (active (button_d r));
   InputReportKey BTN_TRIGGER_HAPPY3 (active (hat r));
   InputReportKey BTN_TRIGGER_HAPPY4 (active (button_st r));
   InputReportKey BTN_TRIGGER_HAPPY5 (active (dpad1_top r));
   InputReportKey BTN_TRIGGER_HAPPY6 (active (dpad1_right r));
   InputReportKey BTN_TRIGGER_HAPPY7 (active (dpad1_bottom r));
   InputReportKey BTN_TRIGGER_HAPPY8 (active (dpad1_left r));
   InputReportKey BTN_THUMB (active (launch r));
   InputReportKey BTN_TRIGGER (active (trigger r));
   InputSync].

(** The events [hori_poll_vr1_complete] reports for a poll-B report. *)
Definition vr1_events (r : hori_raw_input_vr_01) : list call :=
  [InputReportKey BTN_THUMB2 (active (dpad3_right r));
   InputReportKey BTN_C (active (dpad3_middle r));
   InputReportKey BTN_X (active (dpad3_left r));
   InputReportKey BTN_Y (active (button_sw1 r));
   InputReportAbs ABS_Z
     (ternary_pad (active (dpad2_left r)) (active (dpad2_right r)));
   InputReportAbs ABS_RZ
     (ternary_pad (active (dpad2_top r)) (active (dpad2_bottom r)));
   InputSync].

Definition is_abs (c : call) : bool :=
  match c with InputReportAbs _ _ => true | _ => false end.

(** A run of the chain: a success, a stall, an unexpected status
    ([-EPROTO], 71), then a timeout, after which a success is still
    offered. *)
Definition sample_completions : list urb :=
  map (fun st => {| status := st; actual_length := 2; transfer_buffer := [] |})
      [0; - EPIPE; -71; - ETIME; 0].

(** The control URB is in flight for phase [p]: its handler is the one of
    [p], and the submissions to come succeed. *)
Definition chain_ready (p : phase) (k : kernel) : Prop :=
  ctl_in_flight k = true
  /\ option_map complete (urb_ctl (dev k)) = Some (handler_of p)
  /\ submits_succeed k.

(** ** The USB core side of the interrupt URB *)

(** A completed interrupt URB is handed to [hori_usb_irq], the handler
    [usb_fill_int_urb] stored in it at probe; only an URB in flight
    completes. *)
Definition irq_complete (u : urb) : M unit :=
  fun k =>
    if irq_in_flight k then
      (set_in_flight URB_IRQ false ;; hori_usb_irq u) k
    else ret tt k.

Fixpoint irq_completions (us : list urb) : M unit :=
  match us with
  | [] => ret tt
  | u :: rest => irq_complete u ;; irq_completions rest
  end.

(** The statuses on which [hori_usb_irq] reaches its [exit] label. *)
Definition irq_continues (st : Z) : bool :=
  negb ((st =? - ETIME) || (st =? - ECONNRESET) || (st =? - ENOENT)
        || (st =? - ESHUTDOWN) || (st =? - EPIPE)).

Fixpoint irq_leading (us : list urb) : nat :=
  match us with
  | [] => O
  | u :: rest => if irq_continues (status u) then S (irq_leading rest) else O
  end.

(** The frame one interrupt completion contributes: the nine calls of the
    decoding branch, or nothing. *)
Definition irq_frame (u : urb) : list call :=
  if (status u =? 0) && (actual_length u =? 8) then
    [InputReportAbs ABS_X (data_at (transfer_buffer u) 0);
     InputReportAbs ABS_Y (data_at (transfer_buffer u) 1);
     InputReportAbs ABS_RUDDER (data_at (transfer_buffer u) 2);
     InputReportAbs ABS_RX (data_at (transfer_buffer u) 3);
     InputReportAbs ABS_RY (data_at (transfer_buffer u) 4);
     InputReportAbs ABS_THROTTLE (data_at (transfer_buffer u) 5);
     InputReportKey BTN_A (data_at (transfer_buffer u) 6 <? 0xC0);
     InputReportKey BTN_B (data_at (transfer_buffer u) 7 <? 0xC0);
     InputSync]
  else [].

(** ** The device writing a poll report *)

Definition set_vr0 (h : hori) (r : hori_raw_input_vr_00) : hori :=
  {| is_open := is_open h; ctl_req := ctl_req h;
     vr0 := r; vr1 := vr1 h; urb_ctl := urb_ctl h |}.

Definition set_vr1 (h : hori) (r : hori_raw_input_vr_01) : hori :=
  {| is_open := is_open h; ctl_req := ctl_req h;
     vr0 := vr0 h; vr1 := r; urb_ctl := urb_ctl h |}.

(** The two bytes the device answers land in the buffer the control URB
    points at; [r0] and [r1] are those bytes read as a poll-A and as a
    poll-B report. *)
Definition ctl_data_in (r0 : hori_raw_input_vr_00)
    (r1 : hori_raw_input_vr_01) : M unit :=
  fun k =>
    if ctl_in_flight k then
      match urb_ctl (dev k) with
      | Some c =>
          match transfer_buffer_ref c with
          | Buf_vr0 => set_dev (set_vr0 (dev k) r0) k
          | Buf_vr1 => set_dev (set_vr1 (dev k) r1) k
          end
      | None => ret tt k
      end
    else ret tt k.

(** ** What can happen to a session *)

Inductive op :=
| OpOpen | OpClose | OpSuspend | OpResume
| OpPreReset | OpPostReset | OpResetResume
| OpIrqComplete (u : urb)
| OpCtlComplete (u : urb) (r0 : hori_raw_input_vr_00)
                (r1 : hori_raw_input_vr_01).

Definition run_op (o : op) : M unit :=
  match o with
  | OpOpen => hori_open ;; ret tt
  | OpClose => hori_close
  | OpSuspend => hori_suspend ;; ret tt
  | OpResume => hori_resume ;; ret tt
  | OpPreReset => hori_pre_reset ;; ret tt
  | OpPostReset => hori_post_reset ;; ret tt
  | OpResetResume => hori_reset_resume ;; ret tt
  | OpIrqComplete u => irq_complete u
  | OpCtlComplete u r0 r1 => ctl_data_in r0 r1 ;; ctl_complete u
  end.

Fixpoint run_ops (os : list op) : M unit :=
  match os with
  | [] => ret tt
  | o :: rest => run_op o ;; run_ops rest
  end.

(** The setup packet of the wire protocol: IN, vendor, endpoint recipient,
    value 0, index 1, two bytes, request 0x00 or 0x01. *)
Definition wire_setup (req : usb_ctrlrequest) : bool :=
  (bRequestType req =? 0xC2) && (wValue req =? 0) && (wIndex req =? 1)
  && (wLength req =? 2)
  && ((bRequest req =? HORI_POLL_VR0) || (bRequest req =? HORI_POLL_VR1)).

(** The request code, the completion handler and the buffer of the control
    URB belong to the same poll. *)
Definition ctl_consistent (h : hori) : bool :=
  match urb_ctl h with
  | None => true
  | Some c =>
      match complete c, transfer_buffer_ref c with
      | Hori_poll_vr0_complete, Buf_vr0 =>
          (bRequest (ctl_req h) =? HORI_POLL_VR0)
          && (transfer_buffer_length c =? sizeof_vr0)
      | Hori_poll_vr1_complete, Buf_vr1 =>
          (bRequest (ctl_req h) =? HORI_POLL_VR1)
          && (transfer_buffer_length c =? sizeof_vr1)
      | _, _ => false
      end
  end.

Definition session_inv (k : kernel) : Prop :=
  wire_setup (ctl_req (dev k)) = true
  /\ ctl_consistent (dev k) = true
  /\ (ctl_in_flight k = true -> urb_ctl (dev k) <> None)
  /\ (irq_in_flight k = true -> is_open (dev k) = true)
  /\ (ctl_in_flight k = true -> is_open (dev k) = true).

(** Every control submission of a list of calls carries the wire setup
    packet. *)
Fixpoint ctl_setups_ok (cs : list call) : bool :=
  match cs with
  | [] => true
  | UsbSubmitUrb URB_CTL _ setup :: rest =>
      match setup with Some req => wire_setup req | None => false end
      && ctl_setups_ok rest
  | _ :: rest => ctl_setups_ok rest
  end.

(** One operation keeps the invariant and only submits the control URB with
    the wire setup packet. *)
Definition step_ok {A} (m : M A) (k : kernel) : Prop :=
  session_inv (exec m k) /\ ctl_setups_ok (made m k) = true.

(** ** Reading a list of calls, continued *)

Definition is_kill (c : call) : bool :=
  match c with UsbKillUrb _ => true | _ => false end.

Definition is_mutex (c : call) : bool :=
  match c with MutexLock | MutexUnlock => true | _ => false end.

Definition is_sync (c : call) : bool :=
  match c with InputSync => true | _ => false end.

(** The allocation flags of the submissions of one URB. *)
Fixpoint submit_flags (u : urb_id) (cs : list call) : list gfp :=
  match cs with
  | [] => []
  | UsbSubmitUrb u' g _ :: rest =>
      if is_submit u (UsbSubmitUrb u' g None)
      then g :: submit_flags u rest else submit_flags u rest
  | _ :: rest => submit_flags u rest
  end.

(** A frame: nothing, or events closed by the only [input_sync]. *)
Definition is_frame (evs : list call) : bool :=
  match rev evs with
  | [] => true
  | last :: before => is_sync last && negb (existsb is_sync before)
  end.

(** ** [hori_probe] *)

(** What the kernel answers to [hori_probe]: the result of
    [usb_find_common_endpoints], whether each allocation gave a non-NULL
    pointer, [usb_endpoint_maxp] of the interrupt endpoint, and the results
    of [devm_add_action_or_reset] and [input_register_device]. *)
Record probe_env := {
  find_common_endpoints : Z;
  kzalloc_hori : bool;
  endpoint_maxp : Z;
  kmalloc_xfer_buf : bool;
  alloc_urb : bool;
  kzalloc_ctl_req : bool;
  alloc_urb_ctl : bool;
  add_action_or_reset : Z;
  input_allocate_device : bool;
  input_register_device : Z
}.

(** The calls [hori_probe] makes. *)
Inductive probe_call :=
| UsbFindCommonEndpoints
| ProbeDevErr (fmt : string)
| DevmKzallocHori
| MutexInit
| UsbSetIntfdata
| DevmKmalloc (size : Z)
| UsbAllocUrb (u : urb_id)
| DevmKzallocCtlReq
| DevmAddActionOrReset
| UsbFillIntUrb (buffer_length : Z)
| DevmInputAllocateDevice
| UsbMakePath
| Strlcat (src : string)
| UsbToInputId
| InputSetAbsParams (code : abs_code) (min max fuzz flat : Z)
| InputSetCapability (code : key_code)
| InputSetDrvdata
| InputRegisterDevice.

(** A probe computation: [inl e] is [return e;], [inr a] goes on with [a];
    the calls made so far come with both. *)
Definition PM (A : Type) : Type := (Z + A) * list probe_call.

Definition pret {A} (a : A) : PM A := (inr a, []).
Definition preturn {A} (e : Z) : PM A := (inl e, []).
Definition pbind {A B} (m : PM A) (f : A -> PM B) : PM B :=
  match m with
  | (inl e, c) => (inl e, c)
  | (inr a, c) => let (r, c') := f a in (r, c ++ c')
  end.
Definition pcall (c : probe_call) : PM unit := (inr tt, [c]).

Declare Scope probe_scope.
Delimit Scope probe_scope with probe.
Notation "x <- m ;; f" := (pbind m (fun x => f))
  (at level 61, m at next level, right associativity) : probe_scope.
Notation "m ;; f" := (pbind m (fun _ => f))
  (at level 61, right associativity) : probe_scope.

(** The session as [devm_kzalloc] gives it: everything zero; [ctl_req] is allocated
    zeroed as well, further down. *)
Definition hori_zero : hori :=
  {| is_open := false;
     ctl_req := {| bRequestType := 0; bRequest := 0;
                   wValue := 0; wIndex := 0; wLength := 0 |};
     vr0 := vr0_zero; vr1 := vr1_zero; urb_ctl := None |}.

Definition set_setup (h : hori) (req : usb_ctrlrequest) : hori :=
  {| is_open := is_open h; ctl_req := req;
     vr0 := vr0 h; vr1 := vr1 h; urb_ctl := urb_ctl h |}.

(** The body of [hori_probe], call by call.  The assignments to the fields
    of the input device ([name], [phys], [open], [close]) are no calls and
    leave no trace here.  The value carried to the end is the session stored
    with [usb_set_intfdata]. *)
Definition hori_probe_body (env : probe_env) : PM hori :=
  (pcall UsbFindCommonEndpoints ;;
   (if negb (find_common_endpoints env =? 0) then
      pcall (ProbeDevErr "Could not find endpoint") ;;
      preturn (find_common_endpoints env)
    else pret tt) ;;
   pcall DevmKzallocHori ;;
   (if negb (kzalloc_hori env) then preturn (- ENOMEM) else pret tt) ;;
   let hori := hori_zero in
   pcall MutexInit ;;
   pcall UsbSetIntfdata ;;
   let xfer_size := endpoint_maxp env in
   pcall (DevmKmalloc xfer_size) ;;
   (if negb (kmalloc_xfer_buf env) then preturn (- ENOMEM) else pret tt) ;;
   pcall (UsbAllocUrb URB_IRQ) ;;
   (if negb (alloc_urb env) then preturn (- ENOMEM) else pret tt) ;;
   pcall DevmKzallocCtlReq ;;
   (if negb (kzalloc_ctl_req env) then preturn (- ENOMEM) else pret tt) ;;
   let hori :=
     set_setup hori
       {| bRequestType :=
            Z.lor USB_DIR_IN (Z.lor USB_TYPE_VENDOR USB_RECIP_ENDPOINT);
          bRequest := HORI_POLL_VR0;
          wValue := 0; wIndex := 1; wLength := sizeof_vr0 |} in
   pcall (UsbAllocUrb URB_CTL) ;;
   (if negb (alloc_urb_ctl env) then preturn (- ENOMEM) else pret tt) ;;
   pcall DevmAddActionOrReset ;;
   (if negb (add_action_or_reset env =? 0)
    then preturn (add_action_or_reset env) else pret tt) ;;
   pcall (UsbFillIntUrb xfer_size) ;;
   pcall DevmInputAllocateDevice ;;
   (if negb (input_allocate_device env) then
      pcall (ProbeDevErr "couldn't allocate input device") ;;
      preturn (- ENOMEM)
    else pret tt) ;;
   pcall UsbMakePath ;;
   pcall (Strlcat "/input0") ;;
   pcall UsbToInputId ;;
   pcall (InputSetAbsParams ABS_X 0 255 0 0) ;;
   pcall (InputSetAbsParams ABS_Y 0 255 0 0) ;;
   pcall (InputSetAbsParams ABS_RX 0 255 0 0) ;;
   pcall (InputSetAbsParams ABS_RY 0 255 0 0) ;;
   pcall (InputSetAbsParams ABS_THROTTLE 0 255 0 0) ;;
   pcall (InputSetAbsParams ABS_RUDDER 0 255 0 0) ;;
   pcall (InputSetAbsParams ABS_Z 0 3 0 0) ;;
   pcall (InputSetAbsParams ABS_RZ 0 3 0 0) ;;
   pcall (InputSetCapability BTN_TRIGGER_HAPPY1) ;;
   pcall (InputSetCapability BTN_TRIGGER_HAPPY2) ;;
   pcall (InputSetCapability BTN_TRIGGER_HAPPY3) ;;
   pcall (InputSetCapability BTN_TRIGGER_HAPPY4) ;;
   pcall (InputSetCapability BTN_TRIGGER_HAPPY5) ;;
   pcall (InputSetCapability BTN_TRIGGER_HAPPY6) ;;
   pcall (InputSetCapability BTN_TRIGGER_HAPPY7) ;;
   pcall (InputSetCapability BTN_TRIGGER_HAPPY8) ;;
   pcall (InputSetCapability BTN_TRIGGER) ;;
   pcall (InputSetCapability BTN_THUMB) ;;
   pcall (InputSetCapability BTN_THUMB2) ;;
   pcall (InputSetCapability BTN_A) ;;
   pcall (InputSetCapability BTN_B) ;;
   pcall (InputSetCapability BTN_C) ;;
   pcall (InputSetCapability BTN_X) ;;
   pcall (InputSetCapability BTN_Y) ;;
   pcall InputSetDrvdata ;;
   pcall InputRegisterDevice ;;
   (if negb (input_register_device env =? 0)
    then preturn (input_register_device env) else pret tt) ;;
   pret hori)%probe.

(** The [int] that [hori_probe] returns, the session when that is the final
    [return 0], and the calls made. *)
Definition hori_probe (env : probe_env) : Z * option hori * list probe_call :=
  match hori_probe_body env with
  | (inl e, cs) => (e, None, cs)
  | (inr h, cs) => (0, Some h, cs)
  end.

Definition probe_result (env : probe_env) : Z := fst (fst (hori_probe env)).
Definition probe_session (env : probe_env) : option hori :=
  snd (fst (hori_probe env)).
Definition probe_calls (env : probe_env) : list probe_call :=
  snd (hori_probe env).

(** Every step of the probe goes through. *)
Definition probe_env_ok (env : probe_env) : bool :=
  (find_common_endpoints env =? 0) && kzalloc_hori env
  && kmalloc_xfer_buf env && alloc_urb env && kzalloc_ctl_req env
  && alloc_urb_ctl env && (add_action_or_reset env =? 0)
  && input_allocate_device env && (input_register_device env =? 0).

Definition good_env (maxp : Z) : probe_env :=
  {| find_common_endpoints := 0; kzalloc_hori := true;
     endpoint_maxp := maxp; kmalloc_xfer_buf := true; alloc_urb := true;
     kzalloc_ctl_req := true; alloc_urb_ctl := true;
     add_action_or_reset := 0; input_allocate_device := true;
     input_register_device := 0 |}.







(** The position of the first call satisfying [f], if any. *)
Fixpoint index_of {A} (f : A -> bool) (l : list A) : option nat :=
  match l with
  | [] => None
  | x :: rest => if f x then Some O else option_map S (index_of f rest)
  end.

(** The mutex discipline of a list of calls: [MutexLock] and [MutexUnlock]
    alternate starting from [held], every submission and cancellation is made
    with the lock held, and the lock is free at the end. *)
Fixpoint under_lock_from (held : bool) (cs : list call) : bool :=
  match cs with
  | [] => negb held
  | MutexLock :: rest => negb held && under_lock_from true rest
  | MutexUnlock :: rest => held && under_lock_from false rest
  | c :: rest => (held || negb (is_transfer_op c)) && under_lock_from held rest
  end.

Definition under_lock (cs : list call) : bool := under_lock_from false cs.

(** An environment in which the setup packet cannot be allocated. *)
Definition no_ctl_req_env : probe_env :=
  {| find_common_endpoints := 0; kzalloc_hori := true;
     endpoint_maxp := 8; kmalloc_xfer_buf := true; alloc_urb := true;
     kzalloc_ctl_req := false; alloc_urb_ctl := true;
     add_action_or_reset := 0; input_allocate_device := true;
     input_register_device := 0 |}.

Definition registers_cleanup (pcs : list probe_call) : bool :=
  existsb (fun pc => match pc with DevmAddActionOrReset => true
                              | _ => false end) pcs.

Definition allocates_urb (u : urb_id) (pcs : list probe_call) : bool :=
  existsb (fun pc => match pc, u with
                     | UsbAllocUrb URB_IRQ, URB_IRQ => true
                     | UsbAllocUrb URB_CTL, URB_CTL => true
                     | _, _ => false
                     end) pcs.



(** * Properties *)

(** ** Running computations *)

Lemma made_bind {A B} (m : M A) (f : A -> M B) (k : kernel) :
  made (bind m f) k = made m k ++ made (f (result m k)) (exec m k).
Proof.
  unfold made, result, exec, bind.
  destruct (m k) as [[a k1] c1]; cbn.
  destruct (f a k1) as [[b k2] c2]; reflexivity.
Qed.

Lemma exec_bind {A B} (m : M A) (f : A -> M B) (k : kernel) :
  exec (bind m f) k = exec (f (result m k)) (exec m k).
Proof.
  unfold result, exec, bind.
  destruct (m k) as [[a k1] c1]; cbn.
  destruct (f a k1) as [[b k2] c2]; reflexivity.
Qed.

Lemma result_bind {A B} (m : M A) (f : A -> M B) (k : kernel) :
  result (bind m f) k = result (f (result m k)) (exec m k).
Proof.
  unfold result, exec, bind.
  destruct (m k) as [[a k1] c1]; cbn.
  destruct (f a k1) as [[b k2] c2]; reflexivity.
Qed.

(** Unfolds the driver down to the state and the calls, keeping the
    comparisons on statuses and results as they are written. *)
Ltac drv_unfold :=
  unfold result, exec, made, first_submit_result, guard_mutex,
    open_and_resubmit_failed, report_submit_error, hori_urb_error,
    usb_submit_urb, usb_kill_urb, mutex_lock, mutex_unlock,
    input_report_abs, input_report_key, input_sync,
    dev_dbg, dev_warn, dev_err,
    next_submit_result, set_in_flight, set_dev, get_dev, emit, bind, ret
    in *;
  cbn -[Z.eqb Z.ltb Z.opp] in *.

(** Decides the comparisons in the goal one after the other, as the code
    meets them; each outcome is kept as an equation. *)
Ltac case_tests :=
  repeat (cbn -[Z.eqb Z.ltb Z.opp] in *;
    match goal with
    | H : Z.eqb ?a ?b = _ |- context [Z.eqb ?a ?b] => rewrite H
    | H : Z.ltb ?a ?b = _ |- context [Z.ltb ?a ?b] => rewrite H
    | |- context [Z.eqb ?a ?b] =>
        let v := eval vm_compute in (Z.eqb a b) in
        match v with true => idtac | false => idtac end;
        change (Z.eqb a b) with v
    | |- context [Z.ltb ?a ?b] =>
        let v := eval vm_compute in (Z.ltb a b) in
        match v with true => idtac | false => idtac end;
        change (Z.ltb a b) with v
    | |- context [Z.eqb ?a ?b] => destruct (Z.eqb a b) eqn:?
    | |- context [Z.ltb ?a ?b] => destruct (Z.ltb a b) eqn:?
    end);
  cbn -[Z.eqb Z.ltb Z.opp] in *.

(** Turns the outcomes of the comparisons into (in)equalities on [Z]. *)
Ltac tests_to_props :=
  repeat match goal with
    | H : Z.eqb _ _ = true |- _ => apply Z.eqb_eq in H
    | H : Z.eqb _ _ = false |- _ => apply Z.eqb_neq in H
    | H : Z.ltb _ _ = true |- _ => apply Z.ltb_lt in H
    | H : Z.ltb _ _ = false |- _ => apply Z.ltb_ge in H
    end.

Ltac absurd_tests :=
  tests_to_props;
  unfold EPERM, ENOENT, EIO, EPIPE, ETIME, ECONNRESET, ESHUTDOWN in *;
  first [congruence | lia].

(** [hori_poll_vr0] always leaves the control URB set up for request 0x00
    with [hori_poll_vr0_complete], and makes exactly one submission. *)
Lemma hori_poll_vr0_requests (k : kernel) :
  ctl_requests (made hori_poll_vr0 k) = [HORI_POLL_VR0]
  /\ submissions URB_IRQ (made hori_poll_vr0 k) = []
  /\ published (made hori_poll_vr0 k) = []
  /\ is_open (dev (exec hori_poll_vr0 k)) = is_open (dev k)
  /\ urb_ctl (dev (exec hori_poll_vr0 k)) =
       Some {| complete := Hori_poll_vr0_complete;
               transfer_buffer_ref := Buf_vr0;
               transfer_buffer_length := sizeof_vr0 |}.
Proof.
  destruct k as [h [|r rest] fi fc];
    unfold hori_poll_vr0; drv_unfold; case_tests; repeat split.
Qed.

Lemma hori_poll_vr1_requests (k : kernel) :
  ctl_requests (made hori_poll_vr1 k) = [HORI_POLL_VR1]
  /\ submissions URB_IRQ (made hori_poll_vr1 k) = []
  /\ published (made hori_poll_vr1 k) = []
  /\ is_open (dev (exec hori_poll_vr1 k)) = is_open (dev k)
  /\ urb_ctl (dev (exec hori_poll_vr1 k)) =
       Some {| complete := Hori_poll_vr1_complete;
               transfer_buffer_ref := Buf_vr1;
               transfer_buffer_length := sizeof_vr1 |}.
Proof.
  destruct k as [h [|r rest] fi fc];
    unfold hori_poll_vr1; drv_unfold; case_tests; repeat split.
Qed.

(** ** Lifecycle: open, suspend, resume *)

Example opened_is_hori_open :
  exec hori_open (boot [0; 0; - ENODEV]) = opened [- ENODEV].
Proof. reflexivity. Qed.

(** C5. [hori_open]: when the submission of the interrupt URB fails, the
    result is [-EIO], the session is left as it was ([is_open] included) and
    the control URB is not submitted; when it succeeds, the result is 0,
    [is_open] is set and the poll chain is started with request 0x00 and
    [hori_poll_vr0_complete], whatever the control submission returns. *)
Theorem hori_open_spec (k : kernel) :
  (first_submit_result k <> 0 ->
     result hori_open k = - EIO
     /\ dev (exec hori_open k) = dev k
     /\ irq_in_flight (exec hori_open k) = irq_in_flight k
     /\ ctl_in_flight (exec hori_open k) = ctl_in_flight k
     /\ submissions URB_CTL (made hori_open k) = [])
  /\ (first_submit_result k = 0 ->
     result hori_open k = 0
     /\ is_open (dev (exec hori_open k)) = true
     /\ irq_in_flight (exec hori_open k) = true
     /\ submissions URB_IRQ (made hori_open k) =
          [UsbSubmitUrb URB_IRQ GFP_KERNEL None]
     /\ ctl_requests (made hori_open k) = [HORI_POLL_VR0]
     /\ urb_ctl (dev (exec hori_open k)) =
          Some {| complete := Hori_poll_vr0_complete;
                  transfer_buffer_ref := Buf_vr0;
                  transfer_buffer_length := sizeof_vr0 |}).
Proof.
  destruct k as [h [|r [|r' rest]] fi fc];
    unfold hori_open, hori_poll_vr0; drv_unfold;
    (split; intros H; [| subst]); case_tests;
    repeat split; absurd_tests.
Qed.

(** The interrupt submission failing with [-ENOMEM] on a fresh session, and
    the control submission failing with [-ENOMEM] after the interrupt
    submission went through. *)
Lemma hori_open_spec_witness :
  (result hori_open (boot [- ENOMEM]) = - EIO
   /\ dev (exec hori_open (boot [- ENOMEM])) = probed)
  /\ (result hori_open (boot [0; - ENOMEM]) = 0
      /\ is_open (dev (exec hori_open (boot [0; - ENOMEM]))) = true
      /\ ctl_in_flight (exec hori_open (boot [0; - ENOMEM])) = false).
Proof.
  split.
  - destruct (hori_open_spec (boot [- ENOMEM])) as [Hfail _].
    assert (Hne : first_submit_result (boot [- ENOMEM]) <> 0)
      by (unfold first_submit_result; cbn; discriminate).
    destruct (Hfail Hne) as (Hr & Hd & _).
    split; [exact Hr | exact Hd].
  - destruct (hori_open_spec (boot [0; - ENOMEM])) as [_ Hok].
    destruct (Hok eq_refl) as (Hr & Ho & _).
    split; [exact Hr | split; [exact Ho | reflexivity]].
Defined.

(** [hori_post_reset] on an open session starts the chain with request 0x00
    too, and does so even when the interrupt resubmission failed. *)
Lemma hori_post_reset_starts_at_vr0 (k : kernel) :
  is_open (dev k) = true ->
  ctl_requests (made hori_post_reset k) = [HORI_POLL_VR0]
  /\ result hori_post_reset k =
       (if first_submit_result k <? 0 then - EIO else 0).
Proof.
  destruct k as [[o req b0 b1 c] [|r [|r' rest]] fi fc];
    cbn; intros ->;
    unfold hori_post_reset, hori_poll_vr0; drv_unfold;
    case_tests; split; reflexivity.
Qed.

(** C10. With [is_open] false, [hori_suspend] and [hori_resume] return 0,
    cancel and submit nothing and leave the state as it was; and
    [hori_suspend] returns 0 in every state. *)
Theorem suspend_resume_not_open (k : kernel) :
  result hori_suspend k = 0
  /\ (is_open (dev k) = false ->
        exec hori_suspend k = k
        /\ transfer_ops (made hori_suspend k) = []
        /\ result hori_resume k = 0
        /\ exec hori_resume k = k
        /\ transfer_ops (made hori_resume k) = []).
Proof.
  destruct k as [[o req b0 b1 c] rs fi fc].
  unfold hori_suspend, hori_resume, hori_poll_vr0; drv_unfold.
  split.
  - destruct o; reflexivity.
  - intros H; subst o; cbn. repeat split.
Qed.

Lemma suspend_resume_not_open_witness :
  result hori_suspend (boot [- ENODEV]) = 0
  /\ exec hori_suspend (boot [- ENODEV]) = boot [- ENODEV]
  /\ result hori_resume (boot [- ENODEV]) = 0
  /\ exec hori_resume (boot [- ENODEV]) = boot [- ENODEV].
Proof.
  destruct (suspend_resume_not_open (boot [- ENODEV])) as [Hs Hclosed].
  destruct (Hclosed eq_refl) as (Hes & _ & Hr & Her & _).
  split; [exact Hs | split; [exact Hes | split; [exact Hr | exact Her]]].
Defined.

(** C6, as stated, fails: on an open session whose interrupt resubmission is
    refused ([-ENODEV]), [hori_resume] after [hori_suspend] returns [-EIO]
    and never submits the control URB. *)
Lemma resume_failure_skips_poll_chain :
  let k1 := exec hori_suspend (opened [- ENODEV]) in
  is_open (dev k1) = true
  /\ result hori_resume k1 = - EIO
  /\ submissions URB_CTL (made hori_resume k1) = []
  /\ ctl_requests (made hori_resume k1) = []
  /\ ctl_in_flight (exec hori_resume k1) = false.
Proof. cbn. repeat split. Qed.

(** C6, amended. On an open session [hori_suspend] cancels both URBs and
    leaves [is_open] true; [hori_resume] then resubmits the interrupt URB
    and, unless that submission returns a negative value, starts the poll
    chain with request 0x00 and [hori_poll_vr0_complete]; when it is
    negative, [hori_resume] returns [-EIO] without submitting the control
    URB. *)
Theorem suspend_then_resume (k : kernel) :
  is_open (dev k) = true ->
  let k1 := exec hori_suspend k in
  result hori_suspend k = 0
  /\ transfer_ops (made hori_suspend k) = [UsbKillUrb URB_IRQ; UsbKillUrb URB_CTL]
  /\ is_open (dev k1) = true
  /\ irq_in_flight k1 = false /\ ctl_in_flight k1 = false
  /\ submissions URB_IRQ (made hori_resume k1) =
       [UsbSubmitUrb URB_IRQ GFP_KERNEL None]
  /\ (0 <= first_submit_result k1 ->
        result hori_resume k1 = 0
        /\ ctl_requests (made hori_resume k1) = [HORI_POLL_VR0]
        /\ urb_ctl (dev (exec hori_resume k1)) =
             Some {| complete := Hori_poll_vr0_complete;
                     transfer_buffer_ref := Buf_vr0;
                     transfer_buffer_length := sizeof_vr0 |})
  /\ (first_submit_result k1 < 0 ->
        result hori_resume k1 = - EIO
        /\ submissions URB_CTL (made hori_resume k1) = []).
Proof.
  destruct k as [[o req b0 b1 c] [|r [|r' rest]] fi fc];
    intros Hopen k1; subst k1; cbn in Hopen; subst o;
    unfold hori_suspend, hori_resume, hori_poll_vr0; drv_unfold;
    case_tests; repeat split; intros; try reflexivity; absurd_tests.
Qed.

Lemma suspend_then_resume_witness :
  (result hori_resume (exec hori_suspend (opened [0; 0])) = 0
   /\ ctl_requests (made hori_resume (exec hori_suspend (opened [0; 0]))) =
        [HORI_POLL_VR0])
  /\ result hori_resume (exec hori_suspend (opened [- ENODEV])) = - EIO.
Proof.
  destruct (suspend_then_resume (opened [0; 0]) eq_refl)
    as (_ & _ & _ & _ & _ & _ & Hok & _).
  destruct (suspend_then_resume (opened [- ENODEV]) eq_refl)
    as (_ & _ & _ & _ & _ & _ & _ & Hfail).
  assert (Hge : 0 <= first_submit_result (exec hori_suspend (opened [0; 0])))
    by (unfold first_submit_result; cbn; lia).
  assert (Hlt : first_submit_result (exec hori_suspend (opened [- ENODEV])) < 0)
    by (unfold first_submit_result; cbn; lia).
  destruct (Hok Hge) as (Hr & Hq & _).
  destruct (Hfail Hlt) as (Hr' & _).
  split; [split; [exact Hr | exact Hq] | exact Hr'].
Defined.

(** ** The interrupt stream *)

(** C3. A successful interrupt completion of exactly 8 bytes publishes the
    six axes with the raw bytes 0..5, unscaled, button A pressed iff byte 6
    is below 0xC0, button B pressed iff byte 7 is below 0xC0, then one
    [input_sync]; the scenario buffer gives 10, 20, 30, 40, 50, 60, A
    released, B pressed, one sync. *)
Theorem hori_usb_irq_decodes (b0 b1 b2 b3 b4 b5 b6 b7 : byte)
    (tail : list byte) (k : kernel) :
  let u8 := fun b => Z.of_N (Byte.to_N b) in
  published
    (made (hori_usb_irq
             {| status := 0; actual_length := 8;
                transfer_buffer :=
                  b0 :: b1 :: b2 :: b3 :: b4 :: b5 :: b6 :: b7 :: tail |}) k)
  = [InputReportAbs ABS_X (u8 b0); InputReportAbs ABS_Y (u8 b1);
     InputReportAbs ABS_RUDDER (u8 b2); InputReportAbs ABS_RX (u8 b3);
     InputReportAbs ABS_RY (u8 b4); InputReportAbs ABS_THROTTLE (u8 b5);
     InputReportKey BTN_A (u8 b6 <? 0xC0);
     InputReportKey BTN_B (u8 b7 <? 0xC0);
     InputSync]
  /\ published
       (made (hori_usb_irq
                {| status := 0; actual_length := 8;
                   transfer_buffer := scenario_buffer |}) k)
     = [InputReportAbs ABS_X 10; InputReportAbs ABS_Y 20;
        InputReportAbs ABS_RUDDER 30; InputReportAbs ABS_RX 40;
        InputReportAbs ABS_RY 50; InputReportAbs ABS_THROTTLE 60;
        InputReportKey BTN_A false; InputReportKey BTN_B true;
        InputSync].
Proof.
  destruct k as [h [|r rest] fi fc];
    unfold hori_usb_irq, data_at, scenario_buffer; drv_unfold;
    case_tests; split; reflexivity.
Qed.

(** C7. A successful interrupt completion whose length is not 8 writes the
    warning, publishes nothing (no event, no sync) and resubmits the
    interrupt URB. *)
Theorem hori_usb_irq_length_mismatch (u : urb) (k : kernel) :
  status u = 0 ->
  actual_length u <> 8 ->
  hd_error (made (hori_usb_irq u) k) =
    Some (DevPrintk KERN_WARNING "hori_usb_irq"
            "%s - urb->actual_length == %d" [ArgInt (actual_length u)])
  /\ published (made (hori_usb_irq u) k) = []
  /\ submissions URB_IRQ (made (hori_usb_irq u) k) =
       [UsbSubmitUrb URB_IRQ GFP_ATOMIC None]
  /\ dev (exec (hori_usb_irq u) k) = dev k.
Proof.
  destruct u as [st len buf]; cbn; intros -> Hlen.
  destruct k as [h [|r rest] fi fc];
    unfold hori_usb_irq; drv_unfold;
    case_tests; repeat split; absurd_tests.
Qed.

Lemma hori_usb_irq_length_mismatch_witness :
  published
    (made (hori_usb_irq {| status := 0; actual_length := 7;
                           transfer_buffer := scenario_buffer |})
          (opened [])) = []
  /\ submissions URB_IRQ
       (made (hori_usb_irq {| status := 0; actual_length := 7;
                              transfer_buffer := scenario_buffer |})
             (opened [])) = [UsbSubmitUrb URB_IRQ GFP_ATOMIC None].
Proof.
  assert (Hlen : 7 <> 8) by lia.
  destruct (hori_usb_irq_length_mismatch
              {| status := 0; actual_length := 7;
                 transfer_buffer := scenario_buffer |}
              (opened []) eq_refl Hlen) as (_ & Hp & Hs & _).
  split; [exact Hp | exact Hs].
Defined.

(** C2, as stated, fails: [-EPIPE] is a stall, neither a timeout nor a
    termination, and the interrupt handler returns on it without
    resubmitting. *)
Lemma hori_usb_irq_stall_not_resubmitted :
  let u := {| status := - EPIPE; actual_length := 0; transfer_buffer := [] |} in
  classify (status u) = PROTOCOL_STALL
  /\ made (hori_usb_irq u) (opened []) =
       [DevPrintk KERN_DEBUG "hori_usb_irq"
          "%s - urb shutting down with status: %d" [ArgInt (- EPIPE)]]
  /\ submissions URB_IRQ (made (hori_usb_irq u) (opened [])) = [].
Proof. cbn. repeat split. Qed.

(** C2, amended. The interrupt handler resubmits the interrupt URB, once
    and with [GFP_ATOMIC], exactly on the statuses classified SUCCESS or
    UNEXPECTED; on a timeout, a termination and a stall ([-EPIPE], which its
    switch lists with the terminated statuses) it submits nothing and leaves
    the state as it was. *)
Theorem hori_usb_irq_resubmission (u : urb) (k : kernel) :
  match classify (status u) with
  | SUCCESS | UNEXPECTED =>
      submissions URB_IRQ (made (hori_usb_irq u) k) =
        [UsbSubmitUrb URB_IRQ GFP_ATOMIC None]
  | TRANSIENT_TIMEOUT | TERMINATED | PROTOCOL_STALL =>
      transfer_ops (made (hori_usb_irq u) k) = []
      /\ exec (hori_usb_irq u) k = k
  end.
Proof.
  destruct u as [st len buf].
  destruct k as [h [|r rest] fi fc];
    unfold classify, hori_usb_irq; drv_unfold;
    case_tests; repeat split.
Qed.

(** ** The poll handlers *)

(** C4, as stated, fails for the poll reports: a successful control
    completion that transferred 0 bytes instead of 2 is decoded and published
    all the same, by both poll handlers. *)
Lemma poll_handlers_ignore_length :
  let u := {| status := 0; actual_length := 0; transfer_buffer := [] |} in
  actual_length u <> sizeof_vr0
  /\ actual_length u <> sizeof_vr1
  /\ published (made (hori_poll_vr0_complete u) (opened [])) =
       vr0_events vr0_zero
  /\ published (made (hori_poll_vr1_complete u) (opened [])) =
       vr1_events vr1_zero.
Proof. cbn. repeat split; discriminate. Qed.

(** C4, amended. Only the interrupt handler looks at the length: on a
    successful completion it publishes nothing and warns when the length is
    not 8, and decodes when it is 8.  The poll handlers never read the
    length: on every successful completion they publish the events of the
    session's 2-byte report structure. *)
Theorem length_is_checked_by_irq_only (u : urb) (k : kernel) :
  status u = 0 ->
  (actual_length u <> 8 ->
     published (made (hori_usb_irq u) k) = []
     /\ hd_error (log_levels (made (hori_usb_irq u) k)) = Some KERN_WARNING)
  /\ (actual_length u = 8 ->
        published (made (hori_usb_irq u) k) =
          [InputReportAbs ABS_X (data_at (transfer_buffer u) 0);
           InputReportAbs ABS_Y (data_at (transfer_buffer u) 1);
           InputReportAbs ABS_RUDDER (data_at (transfer_buffer u) 2);
           InputReportAbs ABS_RX (data_at (transfer_buffer u) 3);
           InputReportAbs ABS_RY (data_at (transfer_buffer u) 4);
           InputReportAbs ABS_THROTTLE (data_at (transfer_buffer u) 5);
           InputReportKey BTN_A (data_at (transfer_buffer u) 6 <? 0xC0);
           InputReportKey BTN_B (data_at (transfer_buffer u) 7 <? 0xC0);
           InputSync])
  /\ published (made (hori_poll_vr0_complete u) k) = vr0_events (vr0 (dev k))
  /\ published (made (hori_poll_vr1_complete u) k) = vr1_events (vr1 (dev k)).
Proof.
  destruct u as [st len buf]; cbn; intros ->.
  destruct k as [h [|r rest] fi fc];
    unfold hori_usb_irq, hori_poll_vr0_complete, hori_poll_vr1_complete,
      hori_poll_vr0, hori_poll_vr1, vr0_events, vr1_events, pad_axis,
      ternary_pad, active;
    drv_unfold;
    (split; [intros Hlen | split; [intros -> |]]);
    case_tests; repeat split; absurd_tests.
Qed.

Lemma length_is_checked_by_irq_only_witness :
  published
    (made (hori_usb_irq {| status := 0; actual_length := 2;
                           transfer_buffer := scenario_buffer |})
          (opened [])) = []
  /\ published
       (made (hori_poll_vr0_complete
                {| status := 0; actual_length := 8;
                   transfer_buffer := scenario_buffer |})
             (opened [])) = vr0_events (vr0 (dev (opened []))).
Proof.
  destruct (length_is_checked_by_irq_only
              {| status := 0; actual_length := 2;
                 transfer_buffer := scenario_buffer |}
              (opened []) eq_refl) as (Hbad & _ & _ & _).
  destruct (length_is_checked_by_irq_only
              {| status := 0; actual_length := 8;
                 transfer_buffer := scenario_buffer |}
              (opened []) eq_refl) as (_ & _ & Hvr0 & _).
  destruct (length_is_checked_by_irq_only
              {| status := 0; actual_length := 8;
                 transfer_buffer := scenario_buffer |}
              (opened []) eq_refl) as (_ & Hgood & _ & _).
  assert (Hlen : 2 <> 8) by lia.
  destruct (Hbad Hlen) as (Hp & _).
  pose proof (Hgood eq_refl) as Hdecoded.
  split; [exact Hp | exact Hvr0].
Defined.

(** C8, as stated, fails for the poll legs: on a terminated control
    completion ([-ENOENT]) both poll handlers write their line with
    [dev_warn], not at debug level. *)
Lemma poll_handlers_warn_on_terminated :
  let u := {| status := - ENOENT; actual_length := 0; transfer_buffer := [] |} in
  classify (status u) = TERMINATED
  /\ log_levels (made (hori_poll_vr0_complete u) (opened [])) = [KERN_WARNING]
  /\ log_levels (made (hori_poll_vr1_complete u) (opened [])) = [KERN_WARNING].
Proof. cbn. repeat split. Qed.

(** C8, amended. On a terminated completion every handler only writes one
    log line and returns, the state untouched: nothing is decoded, published
    or submitted and the control URB keeps its request and handler.  The
    interrupt handler writes the line at debug level, the two poll handlers
    at warning level; none writes at error level. *)
Theorem terminated_completion (u : urb) (k : kernel) :
  classify (status u) = TERMINATED ->
  (made (hori_usb_irq u) k =
     [DevPrintk KERN_DEBUG "hori_usb_irq"
        "%s - urb shutting down with status: %d" [ArgInt (status u)]]
   /\ exec (hori_usb_irq u) k = k)
  /\ (made (hori_poll_vr0_complete u) k =
        [DevPrintk KERN_WARNING "hori_poll_vr0_complete"
           "%s - urb shutting down with status: %d" [ArgInt (status u)]]
      /\ exec (hori_poll_vr0_complete u) k = k)
  /\ (made (hori_poll_vr1_complete u) k =
        [DevPrintk KERN_WARNING "hori_poll_vr1_complete"
           "%s - urb shutting down with status: %d" [ArgInt (status u)]]
      /\ exec (hori_poll_vr1_complete u) k = k).
Proof.
  destruct u as [st len buf]; cbn.
  destruct k as [h [|r rest] fi fc];
    unfold classify, hori_usb_irq, hori_poll_vr0_complete,
      hori_poll_vr1_complete, hori_poll_vr0, hori_poll_vr1;
    drv_unfold;
    case_tests; intros Hc; try discriminate Hc; repeat split.
Qed.

Lemma terminated_completion_witness :
  made (hori_usb_irq {| status := - ESHUTDOWN; actual_length := 0;
                        transfer_buffer := [] |}) (opened []) =
    [DevPrintk KERN_DEBUG "hori_usb_irq"
       "%s - urb shutting down with status: %d" [ArgInt (- ESHUTDOWN)]]
  /\ exec (hori_poll_vr1_complete
             {| status := - ESHUTDOWN; actual_length := 0;
                transfer_buffer := [] |}) (opened []) = opened [].
Proof.
  destruct (terminated_completion
              {| status := - ESHUTDOWN; actual_length := 0;
                 transfer_buffer := [] |} (opened []) eq_refl)
    as ((Hirq & _) & _ & (_ & Hvr1)).
  split; [exact Hirq | exact Hvr1].
Defined.

(** C9. A successful poll-B completion reports each pad axis with the
    ternary rule on the active-low direction bits: [ABS_Z] from left (low
    edge) and right (high edge), [ABS_RZ] from top (low edge) and bottom
    (high edge).  The low edge is tested first: with its bit at 0 the value
    is 0 whatever the other bit, both active included; otherwise a high-edge
    bit at 0 gives 2, and no edge active gives 1. *)
Theorem hori_poll_vr1_complete_pad_axes
    (len : Z) (buf : list byte) (k : kernel) :
  let u := {| status := 0; actual_length := len; transfer_buffer := buf |} in
  let r := vr1 (dev k) in
  filter is_abs (made (hori_poll_vr1_complete u) k) =
    [InputReportAbs ABS_Z
       (ternary_pad (active (dpad2_left r)) (active (dpad2_right r)));
     InputReportAbs ABS_RZ
       (ternary_pad (active (dpad2_top r)) (active (dpad2_bottom r)))]
  /\ (forall high_bit, pad_axis false high_bit = 0)
  /\ pad_axis true false = 2
  /\ pad_axis true true = 1.
Proof.
  destruct k as [h [|r rest] fi fc];
    unfold hori_poll_vr1_complete, hori_poll_vr0, pad_axis, ternary_pad, active;
    drv_unfold; case_tests; repeat split.
Qed.

(** ** The control poll chain *)

Lemma ctl_requests_app (a b : list call) :
  ctl_requests (a ++ b) = ctl_requests a ++ ctl_requests b.
Proof.
  induction a as [|c a IH]; [reflexivity|].
  destruct c as [| | | |[|] g [req|]| | |]; cbn; rewrite ?IH; reflexivity.
Qed.

Lemma submits_succeed_inv (h : hori) (r : Z) (rest : list Z) (fi fc : bool) :
  submits_succeed {| dev := h; submit_results := r :: rest;
                     irq_in_flight := fi; ctl_in_flight := fc |} ->
  r = 0 /\ Forall (fun r => r = 0) rest.
Proof. unfold submits_succeed; cbn; intros H; inversion H; auto. Qed.

(** Starting the chain issues request 0x00 and leaves the chain in
    phase A. *)
Lemma hori_poll_vr0_starts (k : kernel) :
  submits_succeed k ->
  ctl_requests (made hori_poll_vr0 k) = [request_of PHASE_A]
  /\ chain_ready PHASE_A (exec hori_poll_vr0 k).
Proof.
  destruct k as [h [|r rest] fi fc]; intros Hs;
    [| apply submits_succeed_inv in Hs; destruct Hs as [-> Hs]];
    unfold hori_poll_vr0, chain_ready, submits_succeed; drv_unfold;
    repeat split; auto.
Qed.

(** A completion that continues makes the handler of phase [p] issue the
    request of the other phase. *)
Lemma ctl_complete_continues (p : phase) (u : urb) (k : kernel) :
  chain_ready p k ->
  continues (status u) = true ->
  ctl_requests (made (ctl_complete u) k) = [request_of (other p)]
  /\ chain_ready (other p) (exec (ctl_complete u) k).
Proof.
  destruct u as [st len buf].
  destruct k as [[o req b0 b1 [[fn bf bl]|]] rs fi fc];
    intros (Hfl & Hfn & Hs); cbn in Hfl, Hfn; subst fc; [|discriminate].
  injection Hfn as ->.
  destruct rs as [|r rest];
    [| apply submits_succeed_inv in Hs; destruct Hs as [-> Hs]];
    destruct p;
    unfold continues, classify, ctl_complete, chain_ready, submits_succeed,
      hori_poll_vr0_complete, hori_poll_vr1_complete,
      hori_poll_vr0, hori_poll_vr1;
    drv_unfold; case_tests; intros Hc; try discriminate Hc;
    repeat split; auto.
Qed.

(** A completion that does not continue submits nothing, and the control
    URB is no longer in flight. *)
Lemma ctl_complete_halts (p : phase) (u : urb) (k : kernel) :
  chain_ready p k ->
  continues (status u) = false ->
  ctl_requests (made (ctl_complete u) k) = []
  /\ ctl_in_flight (exec (ctl_complete u) k) = false.
Proof.
  destruct u as [st len buf].
  destruct k as [[o req b0 b1 [[fn bf bl]|]] rs fi fc];
    intros (Hfl & Hfn & Hs); cbn in Hfl, Hfn; subst fc; [|discriminate].
  injection Hfn as ->.
  destruct rs as [|r rest]; destruct p;
    unfold continues, classify, ctl_complete,
      hori_poll_vr0_complete, hori_poll_vr1_complete,
      hori_poll_vr0, hori_poll_vr1;
    drv_unfold; case_tests; intros Hc; try discriminate Hc;
    repeat split.
Qed.

(** With no control URB in flight no completion reaches the driver. *)
Lemma ctl_completions_idle (us : list urb) (k : kernel) :
  ctl_in_flight k = false ->
  made (ctl_completions us) k = [] /\ exec (ctl_completions us) k = k.
Proof.
  intros Hidle; induction us as [|u us [IHm IHe]]; [split; reflexivity|].
  assert (Hstep : ctl_complete u k = (tt, k, []))
    by (unfold ctl_complete; rewrite Hidle; reflexivity).
  assert (Hm : made (ctl_complete u) k = [])
    by (unfold made; rewrite Hstep; reflexivity).
  assert (He : exec (ctl_complete u) k = k)
    by (unfold exec; rewrite Hstep; reflexivity).
  cbn [ctl_completions].
  rewrite made_bind, exec_bind, Hm, He.
  split; [exact IHm | exact IHe].
Qed.

(** From phase [p], the completions issue the alternation that starts with
    the other phase, one request per leading continuing completion. *)
Lemma ctl_completions_alternate (us : list urb) :
  forall (p : phase) (k : kernel),
    chain_ready p k ->
    ctl_requests (made (ctl_completions us) k) =
      map request_of (alternation (other p) (leading us))
    /\ ((leading us < List.length us)%nat ->
        ctl_in_flight (exec (ctl_completions us) k) = false).
Proof.
  induction us as [|u us IH]; intros p k Hready.
  - split; [reflexivity | cbn; lia].
  - cbn [ctl_completions leading List.length].
    rewrite made_bind, exec_bind, ctl_requests_app.
    destruct (continues (status u)) eqn:Hc.
    + destruct (ctl_complete_continues p u k Hready Hc) as [Hreq Hnext].
      destruct (IH (other p) _ Hnext) as [IHreq IHhalt].
      rewrite Hreq, IHreq. split; [reflexivity|].
      intros Hlt; apply IHhalt; lia.
    + destruct (ctl_complete_halts p u k Hready Hc) as [Hreq Hidle].
      destruct (ctl_completions_idle us _ Hidle) as [Hm He].
      rewrite Hreq, Hm, He. split; [reflexivity | intros _; exact Hidle].
Qed.

(** C1. The poll chain started by [hori_poll_vr0]: each completion
    classified SUCCESS, PROTOCOL_STALL or UNEXPECTED makes the handler of
    the current phase submit the request of the other phase, so that the
    requests issued are exactly A, B, A, B, ..., one for the start and one
    for each completion up to the first TRANSIENT_TIMEOUT or TERMINATED one;
    from that completion on nothing is submitted and the control URB is not
    in flight. *)
Theorem poll_chain_alternates (us : list urb) (k : kernel) :
  submits_succeed k ->
  ctl_requests (made (poll_chain us) k) =
    map request_of (alternation PHASE_A (S (leading us)))
  /\ ((leading us < List.length us)%nat ->
      ctl_in_flight (exec (poll_chain us) k) = false)
  /\ (forall u k', continues (status u) = true ->
        ctl_requests (made (hori_poll_vr0_complete u) k') = [request_of PHASE_B]
        /\ ctl_requests (made (hori_poll_vr1_complete u) k') = [request_of PHASE_A])
  /\ (forall u k', continues (status u) = false ->
        transfer_ops (made (hori_poll_vr0_complete u) k') = []
        /\ transfer_ops (made (hori_poll_vr1_complete u) k') = []
        /\ exec (hori_poll_vr0_complete u) k' = k'
        /\ exec (hori_poll_vr1_complete u) k' = k').
Proof.
  intros Hs.
  destruct (hori_poll_vr0_starts k Hs) as [Hreq Hready].
  destruct (ctl_completions_alternate us PHASE_A _ Hready) as [Hseq Hhalt].
  unfold poll_chain. rewrite made_bind, exec_bind, ctl_requests_app.
  rewrite Hreq, Hseq.
  split; [reflexivity|]. split; [exact Hhalt|].
  split; intros [st len buf] [h [|r rest] fi fc];
    unfold continues, classify, hori_poll_vr0_complete,
      hori_poll_vr1_complete, hori_poll_vr0, hori_poll_vr1;
    drv_unfold; case_tests; intros Hc; try discriminate Hc;
    repeat split.
Qed.

Lemma poll_chain_alternates_witness :
  ctl_requests (made (poll_chain sample_completions) (boot [0; 0; 0; 0; 0])) =
    [HORI_POLL_VR0; HORI_POLL_VR1; HORI_POLL_VR0; HORI_POLL_VR1]
  /\ ctl_in_flight
       (exec (poll_chain sample_completions) (boot [0; 0; 0; 0; 0])) = false
  /\ ctl_requests
       (made (hori_poll_vr0_complete
                {| status := - EPIPE; actual_length := 0;
                   transfer_buffer := [] |}) (opened [])) = [HORI_POLL_VR1]
  /\ exec (hori_poll_vr1_complete
             {| status := - ETIME; actual_length := 0;
                transfer_buffer := [] |}) (opened []) = opened [].
Proof.
  assert (Hs : submits_succeed (boot [0; 0; 0; 0; 0]))
    by (unfold submits_succeed; cbn; repeat constructor).
  destruct (poll_chain_alternates sample_completions _ Hs)
    as (Hseq & Hhalt & Hstep & Hstop).
  assert (Hlt : (leading sample_completions
                 < List.length sample_completions)%nat)
    by (cbn; lia).
  destruct (Hstep {| status := - EPIPE; actual_length := 0;
                     transfer_buffer := [] |} (opened []) eq_refl)
    as (Hb & _).
  destruct (Hstop {| status := - ETIME; actual_length := 0;
                     transfer_buffer := [] |} (opened []) eq_refl)
    as (_ & _ & _ & Hsame).
  split; [exact Hseq | split; [exact (Hhalt Hlt) | split;
    [exact Hb | exact Hsame]]].
Defined.

(** * Further properties of the driver *)

(** ** [hori_probe] *)

Ltac probe_unfold :=
  unfold probe_result, probe_session, probe_calls, probe_env_ok, hori_probe,
    hori_probe_body, pbind, pret, preturn, pcall in *;
  cbn -[Z.eqb Z.ltb Z.opp Z.lor] in *.




(** Splits on every answer of the kernel to the probe. *)
Ltac probe_cases env :=
  destruct env as [fe kh mp kx au kc auc aa ia rg]; probe_unfold;
  destruct (Z.eqb_spec fe 0); cbn -[Z.eqb Z.opp Z.lor];
  [destruct kh; cbn -[Z.eqb Z.opp Z.lor];
   [destruct kx; cbn -[Z.eqb Z.opp Z.lor];
    [destruct au; cbn -[Z.eqb Z.opp Z.lor];
     [destruct kc; cbn -[Z.eqb Z.opp Z.lor];
      [destruct auc; cbn -[Z.eqb Z.opp Z.lor];
       [destruct (Z.eqb_spec aa 0); cbn -[Z.eqb Z.opp Z.lor];
        [destruct ia; cbn -[Z.eqb Z.opp Z.lor];
         [destruct (Z.eqb_spec rg 0); cbn -[Z.eqb Z.opp Z.lor]
         |]|]|]|]|]|]|]|].

(** X2. The cleanup action [hori_free_urb] is registered only after both
    URBs were allocated.  When [hori->urb] was allocated and then the setup
    packet or the control URB cannot be allocated, [hori_probe] returns
    [-ENOMEM] without having registered the cleanup action. *)
Theorem hori_probe_cleanup_registration (env : probe_env) :
  (registers_cleanup (probe_calls env) = true ->
     alloc_urb env = true /\ alloc_urb_ctl env = true
     /\ allocates_urb URB_IRQ (probe_calls env) = true
     /\ allocates_urb URB_CTL (probe_calls env) = true)
  /\ (allocates_urb URB_IRQ (probe_calls env) = true ->
      alloc_urb env = true ->
      kzalloc_ctl_req env && alloc_urb_ctl env = false ->
      probe_result env = - ENOMEM
      /\ registers_cleanup (probe_calls env) = false).
Proof.
  probe_cases env; unfold registers_cleanup, allocates_urb; cbn;
    (split; [intros H | intros H1 H2 H3]);
    repeat split; congruence.
Qed.

Lemma hori_probe_cleanup_registration_witness :
  (alloc_urb (good_env 8) = true /\ alloc_urb_ctl (good_env 8) = true)
  /\ (probe_result no_ctl_req_env = - ENOMEM
      /\ registers_cleanup (probe_calls no_ctl_req_env) = false).
Proof.
  destruct (hori_probe_cleanup_registration (good_env 8)) as [Hreg _].
  destruct (hori_probe_cleanup_registration no_ctl_req_env) as [_ Hleak].
  destruct (Hreg eq_refl) as (Ha & Hb & _).
  destruct (Hleak eq_refl eq_refl eq_refl) as (Hr & Hn).
  split; [split; [exact Ha | exact Hb] | split; [exact Hr | exact Hn]].
Defined.



(** ** Declared capabilities and reported events *)



(** Unfolds the three completion handlers. *)
Ltac handlers_unfold :=
  unfold hori_usb_irq, hori_poll_vr0_complete, hori_poll_vr1_complete,
    hori_poll_vr0, hori_poll_vr1 in *;
  drv_unfold.



(** ** Lifecycle, continued *)

Ltac lifecycle_unfold :=
  unfold run_op, hori_reset_resume, hori_open, hori_close, hori_suspend,
    hori_resume, hori_pre_reset, hori_post_reset, hori_poll_vr0,
    hori_poll_vr1 in *;
  drv_unfold.

(** X5. [hori_close] cancels both URBs and clears [is_open] in every state,
    open or not; closing twice leaves the state of closing once; and on the
    closed session [hori_suspend] and [hori_resume] cancel and submit
    nothing. *)
Theorem hori_close_spec (k : kernel) :
  let k1 := exec hori_close k in
  transfer_ops (made hori_close k) = [UsbKillUrb URB_IRQ; UsbKillUrb URB_CTL]
  /\ is_open (dev k1) = false
  /\ irq_in_flight k1 = false /\ ctl_in_flight k1 = false
  /\ exec hori_close k1 = k1
  /\ transfer_ops (made hori_suspend k1) = []
  /\ transfer_ops (made hori_resume k1) = []
  /\ exec hori_resume (exec hori_suspend k1) = k1.
Proof.
  destruct k as [[o req b0 b1 c] rs fi fc]; lifecycle_unfold.
  repeat split.
Qed.

(** X6. The reset window.  [hori_pre_reset] takes the mutex without
    releasing it and cancels both URBs whether the session is open or not,
    leaving [is_open] as it was; [hori_post_reset] releases the mutex as its
    last call without taking it.  Run one after the other they form one
    locked section. *)
Theorem reset_window (k : kernel) :
  let k1 := exec hori_pre_reset k in
  result hori_pre_reset k = 0
  /\ filter is_mutex (made hori_pre_reset k) = [MutexLock]
  /\ transfer_ops (made hori_pre_reset k) =
       [UsbKillUrb URB_IRQ; UsbKillUrb URB_CTL]
  /\ dev k1 = dev k
  /\ irq_in_flight k1 = false /\ ctl_in_flight k1 = false
  /\ filter is_mutex (made hori_post_reset k1) = [MutexUnlock]
  /\ last (made hori_post_reset k1) MutexLock = MutexUnlock
  /\ under_lock (made hori_pre_reset k) = false
  /\ under_lock (made (hori_pre_reset ;; hori_post_reset) k) = true.
Proof.
  destruct k as [[[|] req b0 b1 c] [|r [|r' rest]] fi fc];
    lifecycle_unfold; case_tests; repeat split.
Qed.

(** X7. [hori_post_reset] on an open session resubmits the interrupt URB and
    starts the poll chain with request 0x00 even when that resubmission
    failed; the failure only shows in the result, [-EIO].  On a session that
    is not open it submits nothing and returns 0. *)
Theorem hori_post_reset_spec (k : kernel) :
  (is_open (dev k) = true ->
     submissions URB_IRQ (made hori_post_reset k) =
       [UsbSubmitUrb URB_IRQ GFP_KERNEL None]
     /\ ctl_requests (made hori_post_reset k) = [HORI_POLL_VR0]
     /\ result hori_post_reset k =
          (if first_submit_result k <? 0 then - EIO else 0))
  /\ (is_open (dev k) = false ->
        transfer_ops (made hori_post_reset k) = []
        /\ result hori_post_reset k = 0
        /\ dev (exec hori_post_reset k) = dev k).
Proof.
  destruct k as [[[|] req b0 b1 c] [|r [|r' rest]] fi fc];
    lifecycle_unfold;
    (split; intros H; [| ]); try discriminate H;
    case_tests; repeat split.
Qed.

Lemma hori_post_reset_spec_witness :
  (ctl_requests (made hori_post_reset (opened [- ENODEV])) = [HORI_POLL_VR0]
   /\ result hori_post_reset (opened [- ENODEV]) = - EIO)
  /\ result hori_post_reset (boot [- ENODEV]) = 0.
Proof.
  destruct (hori_post_reset_spec (opened [- ENODEV])) as [Hopen _].
  destruct (hori_post_reset_spec (boot [- ENODEV])) as [_ Hclosed].
  destruct (Hopen eq_refl) as (_ & Hq & Hr).
  destruct (Hclosed eq_refl) as (_ & Hr0 & _).
  split; [split; [exact Hq | exact Hr] | exact Hr0].
Defined.



(** X9. Only [hori_open] and [hori_close] write [is_open]: every other
    lifecycle function and every completion leaves it as it was. *)
Theorem is_open_frame (o : op) (k : kernel) :
  o <> OpOpen -> o <> OpClose ->
  is_open (dev (exec (run_op o) k)) = is_open (dev k).
Proof.
  intros Hno Hnc.
  destruct o as [| | | | | | |[st len buf]|[st len buf] r0 r1];
    try congruence.
  1-5: destruct k as [[[|] req b0 b1 c] [|r [|r' rest]] fi fc];
    lifecycle_unfold; case_tests; reflexivity.
  - destruct k as [h [|r rest] [|] fc];
      unfold run_op, irq_complete; handlers_unfold; case_tests; reflexivity.
  - destruct k as [[io req b0 b1 [[[|] [|] bl]|]] [|r rest] fi [|]];
      unfold run_op, ctl_complete, ctl_data_in;
      handlers_unfold; case_tests; reflexivity.
Qed.

Lemma is_open_frame_witness :
  is_open (dev (exec (run_op OpSuspend) (opened []))) = true
  /\ is_open (dev (exec (run_op OpPreReset) (boot []))) = false.
Proof.
  assert (H1 : OpSuspend <> OpOpen) by discriminate.
  assert (H2 : OpSuspend <> OpClose) by discriminate.
  assert (H3 : OpPreReset <> OpOpen) by discriminate.
  assert (H4 : OpPreReset <> OpClose) by discriminate.
  split.
  - exact (is_open_frame OpSuspend (opened []) H1 H2).
  - exact (is_open_frame OpPreReset (boot []) H3 H4).
Defined.

(** ** The completion handlers, continued *)



(** X11. Whatever the completion, the events a handler publishes form a
    frame: either nothing, or events closed by the one and only
    [input_sync]; and every event is published before the handler
    submits. *)
Theorem handlers_publish_frames (u : urb) (k : kernel) :
  (is_frame (published (made (hori_usb_irq u) k)) = true
   /\ is_frame (published (made (hori_poll_vr0_complete u) k)) = true
   /\ is_frame (published (made (hori_poll_vr1_complete u) k)) = true)
  /\ made (hori_usb_irq u) k =
       published (made (hori_usb_irq u) k)
       ++ filter (fun c => negb (is_input c)) (made (hori_usb_irq u) k)
  /\ made (hori_poll_vr0_complete u) k =
       published (made (hori_poll_vr0_complete u) k)
       ++ filter (fun c => negb (is_input c))
            (made (hori_poll_vr0_complete u) k)
  /\ made (hori_poll_vr1_complete u) k =
       published (made (hori_poll_vr1_complete u) k)
       ++ filter (fun c => negb (is_input c))
            (made (hori_poll_vr1_complete u) k).
Proof.
  destruct u as [st len buf].
  destruct k as [h [|r rest] fi fc];
    handlers_unfold; case_tests;
    repeat split.
Qed.

(** X12. The legs keep to themselves.  The interrupt handler leaves the
    session structure and the control URB alone and never submits the
    control URB; the poll handlers never submit the interrupt URB and leave
    [is_open], the report buffers and the interrupt URB alone.  No handler
    cancels an URB or touches the mutex. *)
Theorem handlers_independent (u : urb) (k : kernel) :
  (dev (exec (hori_usb_irq u) k) = dev k
   /\ ctl_in_flight (exec (hori_usb_irq u) k) = ctl_in_flight k
   /\ submissions URB_CTL (made (hori_usb_irq u) k) = []
   /\ filter is_kill (made (hori_usb_irq u) k) = []
   /\ filter is_mutex (made (hori_usb_irq u) k) = [])
  /\ (forall handler,
        handler = hori_poll_vr0_complete \/ handler = hori_poll_vr1_complete ->
        is_open (dev (exec (handler u) k)) = is_open (dev k)
        /\ vr0 (dev (exec (handler u) k)) = vr0 (dev k)
        /\ vr1 (dev (exec (handler u) k)) = vr1 (dev k)
        /\ irq_in_flight (exec (handler u) k) = irq_in_flight k
        /\ submissions URB_IRQ (made (handler u) k) = []
        /\ filter is_kill (made (handler u) k) = []
        /\ filter is_mutex (made (handler u) k) = []).
Proof.
  destruct u as [st len buf].
  destruct k as [h [|r rest] fi fc];
    (split; [| intros handler [-> | ->]]);
    handlers_unfold; case_tests; repeat split.
Qed.

Lemma handlers_independent_witness :
  submissions URB_IRQ
    (made (hori_poll_vr1_complete
             {| status := 0; actual_length := 2; transfer_buffer := [] |})
          (opened [])) = [].
Proof.
  destruct (handlers_independent
              {| status := 0; actual_length := 2; transfer_buffer := [] |}
              (opened [])) as (_ & Hpoll).
  destruct (Hpoll hori_poll_vr1_complete (or_intror eq_refl))
    as (_ & _ & _ & _ & Hs & _).
  exact Hs.
Defined.

(** X13. Allocation flags.  The interrupt handler resubmits with
    [GFP_ATOMIC]; every submission of the control URB uses [GFP_KERNEL],
    those the poll handlers make on completion as well as those of
    [hori_open], [hori_resume] and [hori_post_reset], which also submit the
    interrupt URB with [GFP_KERNEL]. *)
Theorem submission_flags (u : urb) (k : kernel) :
  forallb (fun g => match g with GFP_ATOMIC => true | _ => false end)
    (submit_flags URB_IRQ (made (hori_usb_irq u) k)) = true
  /\ forallb (fun g => match g with GFP_KERNEL => true | _ => false end)
       (submit_flags URB_CTL (made (hori_poll_vr0_complete u) k)
        ++ submit_flags URB_CTL (made (hori_poll_vr1_complete u) k)
        ++ submit_flags URB_CTL (made hori_open k)
        ++ submit_flags URB_IRQ (made hori_open k)
        ++ submit_flags URB_CTL (made hori_resume k)
        ++ submit_flags URB_IRQ (made hori_resume k)
        ++ submit_flags URB_CTL (made hori_post_reset k)
        ++ submit_flags URB_IRQ (made hori_post_reset k)) = true
  /\ (continues (status u) = true ->
      submit_flags URB_CTL (made (hori_poll_vr0_complete u) k) = [GFP_KERNEL]
      /\ submit_flags URB_CTL (made (hori_poll_vr1_complete u) k)
         = [GFP_KERNEL]).
Proof.
  destruct u as [st len buf].
  destruct k as [[[|] req b0 b1 c] [|r [|r' [|r'' rest]]] fi fc];
    unfold continues, classify;
    handlers_unfold; lifecycle_unfold; case_tests;
    repeat split; intros; try reflexivity; discriminate.
Qed.

Lemma submission_flags_witness :
  submit_flags URB_CTL
    (made (hori_poll_vr0_complete
             {| status := 0; actual_length := 2; transfer_buffer := [] |})
          (opened [])) = [GFP_KERNEL].
Proof.
  destruct (submission_flags
              {| status := 0; actual_length := 2; transfer_buffer := [] |}
              (opened [])) as (_ & _ & Hpoll).
  destruct (Hpoll eq_refl) as (H0 & _).
  exact H0.
Defined.

(** ** The interrupt stream as a whole *)

Lemma published_app (a b : list call) :
  published (a ++ b) = published a ++ published b.
Proof. apply filter_app. Qed.

Lemma submissions_app (u : urb_id) (a b : list call) :
  submissions u (a ++ b) = submissions u a ++ submissions u b.
Proof. apply filter_app. Qed.

(** A completion that reaches [exit] publishes its frame and rearms the
    interrupt URB. *)
Lemma irq_complete_continues (u : urb) (k : kernel) :
  irq_in_flight k = true ->
  submits_succeed k ->
  irq_continues (status u) = true ->
  published (made (irq_complete u) k) = irq_frame u
  /\ List.length (submissions URB_IRQ (made (irq_complete u) k)) = 1%nat
  /\ irq_in_flight (exec (irq_complete u) k) = true
  /\ submits_succeed (exec (irq_complete u) k).
Proof.
  destruct u as [st len buf].
  destruct k as [h rs fi fc]; cbn; intros -> Hs.
  destruct rs as [|r rest];
    [| apply submits_succeed_inv in Hs; destruct Hs as [-> Hs]];
    unfold irq_continues, irq_complete, irq_frame, submits_succeed;
    handlers_unfold; case_tests; intros Hc; try discriminate Hc;
    repeat split; auto.
Qed.

Lemma irq_complete_halts (u : urb) (k : kernel) :
  irq_in_flight k = true ->
  irq_continues (status u) = false ->
  published (made (irq_complete u) k) = []
  /\ submissions URB_IRQ (made (irq_complete u) k) = []
  /\ irq_in_flight (exec (irq_complete u) k) = false.
Proof.
  destruct u as [st len buf].
  destruct k as [h [|r rest] fi fc]; cbn; intros ->;
    unfold irq_continues, irq_complete;
    handlers_unfold; case_tests; intros Hc; try discriminate Hc;
    repeat split; absurd_tests.
Qed.

Lemma irq_completions_idle (us : list urb) (k : kernel) :
  irq_in_flight k = false ->
  made (irq_completions us) k = [] /\ exec (irq_completions us) k = k.
Proof.
  intros Hidle; induction us as [|u us [IHm IHe]]; [split; reflexivity|].
  assert (Hstep : irq_complete u k = (tt, k, []))
    by (unfold irq_complete; rewrite Hidle; reflexivity).
  assert (Hm : made (irq_complete u) k = [])
    by (unfold made; rewrite Hstep; reflexivity).
  assert (He : exec (irq_complete u) k = k)
    by (unfold exec; rewrite Hstep; reflexivity).
  cbn [irq_completions].
  rewrite made_bind, exec_bind, Hm, He.
  split; [exact IHm | exact IHe].
Qed.

(** X14. The interrupt stream, once armed and as long as resubmissions
    succeed: the events published over a run of completions are the frames
    of the completions up to the first one with status [-ETIME],
    [-ECONNRESET], [-ENOENT], [-ESHUTDOWN] or [-EPIPE]; each of those
    earlier completions resubmits once; the URB is still in flight at the
    end exactly when no such completion occurred. *)
Theorem irq_stream (us : list urb) :
  forall k : kernel,
    submits_succeed k ->
    irq_in_flight k = true ->
    published (made (irq_completions us) k) =
      flat_map irq_frame (firstn (irq_leading us) us)
    /\ List.length (submissions URB_IRQ (made (irq_completions us) k)) =
         irq_leading us
    /\ irq_in_flight (exec (irq_completions us) k) =
         Nat.eqb (irq_leading us) (List.length us).
Proof.
  induction us as [|u us IH]; intros k Hs Hfl.
  - cbn. repeat split. exact Hfl.
  - cbn [irq_completions irq_leading List.length].
    rewrite made_bind, exec_bind, published_app, submissions_app.
    destruct (irq_continues (status u)) eqn:Hc.
    + destruct (irq_complete_continues u k Hfl Hs Hc)
        as (Hp & Hn & Hfl' & Hs').
      destruct (IH _ Hs' Hfl') as (IHp & IHn & IHf).
      cbn [firstn flat_map Nat.eqb].
      rewrite Hp, IHp, length_app, Hn, IHn, IHf.
      repeat split.
    + destruct (irq_complete_halts u k Hfl Hc) as (Hp & Hn & Hidle).
      destruct (irq_completions_idle us _ Hidle) as [Hm He].
      rewrite Hp, Hn, Hm, He. cbn. repeat split. exact Hidle.
Qed.

Lemma irq_stream_witness :
  List.length
    (submissions URB_IRQ
       (made (irq_completions sample_completions) (opened [0; 0; 0]))) = 1%nat
  /\ irq_in_flight
       (exec (irq_completions sample_completions) (opened [0; 0; 0])) = false.
Proof.
  assert (Hs : submits_succeed (opened [0; 0; 0]))
    by (unfold submits_succeed; cbn; repeat constructor).
  destruct (irq_stream sample_completions (opened [0; 0; 0]) Hs eq_refl)
    as (_ & Hn & Hf).
  split; [exact Hn | exact Hf].
Defined.

(** ** Invariants of a session *)

Lemma session_inv_boot (rs : list Z) : session_inv (boot rs).
Proof.
  unfold session_inv; cbn. repeat split; intros; discriminate.
Qed.

(** Opens a state that satisfies [session_inv] and fixes the constant
    fields of its setup packet. *)
Ltac inv_open k Hinv :=
  unfold step_ok;
  destruct k as [[io [bt br wv wi wl] b0 b1 c] rs fi fc];
  destruct Hinv as (Hw & Hc & Hn & Hi & Hf);
  unfold wire_setup in Hw; cbn in Hw, Hc, Hn, Hi, Hf;
  apply andb_prop in Hw; destruct Hw as [Hw Hbr];
  repeat (apply andb_prop in Hw; destruct Hw as [Hw ?]);
  repeat match goal with
    | E : Z.eqb _ _ = true |- _ => apply Z.eqb_eq in E
    end;
  subst bt wv wi wl.

Ltac inv_close :=
  unfold step_ok, session_inv, wire_setup; cbn;
  repeat split; intros;
  try reflexivity; try assumption; try discriminate; try congruence;
  auto.

Lemma hori_open_preserves_inv (k : kernel) :
  session_inv k -> step_ok hori_open k.
Proof.
  intros Hinv. inv_open k Hinv.
  destruct rs as [|r [|r' rest]];
    lifecycle_unfold; case_tests; inv_close.
Qed.

Lemma hori_close_preserves_inv (k : kernel) :
  session_inv k -> step_ok hori_close k.
Proof.
  intros Hinv. inv_open k Hinv. lifecycle_unfold. inv_close.
Qed.

Lemma hori_suspend_preserves_inv (k : kernel) :
  session_inv k -> step_ok hori_suspend k.
Proof.
  intros Hinv. inv_open k Hinv.
  destruct io; lifecycle_unfold; inv_close.
Qed.

Lemma hori_resume_preserves_inv (k : kernel) :
  session_inv k -> step_ok hori_resume k.
Proof.
  intros Hinv. inv_open k Hinv.
  destruct io; destruct rs as [|r [|r' rest]];
    lifecycle_unfold; case_tests; inv_close.
Qed.

Lemma hori_pre_reset_preserves_inv (k : kernel) :
  session_inv k -> step_ok hori_pre_reset k.
Proof.
  intros Hinv. inv_open k Hinv. lifecycle_unfold. inv_close.
Qed.

Lemma hori_post_reset_preserves_inv (k : kernel) :
  session_inv k -> step_ok hori_post_reset k.
Proof.
  intros Hinv. inv_open k Hinv.
  destruct io; destruct rs as [|r [|r' rest]];
    lifecycle_unfold; case_tests; inv_close.
Qed.

Lemma irq_complete_preserves_inv (u : urb) (k : kernel) :
  session_inv k -> step_ok (irq_complete u) k.
Proof.
  intros Hinv. destruct u as [st len buf]. inv_open k Hinv.
  destruct fi; [specialize (Hi eq_refl); subst io |];
    destruct rs as [|r rest];
    unfold irq_complete; handlers_unfold; case_tests; inv_close.
Qed.

Lemma ctl_data_in_preserves_inv (r0 : hori_raw_input_vr_00)
    (r1 : hori_raw_input_vr_01) (k : kernel) :
  session_inv k -> step_ok (ctl_data_in r0 r1) k.
Proof.
  intros Hinv. inv_open k Hinv.
  destruct fc; [| unfold ctl_data_in; cbn; inv_close].
  destruct c as [[fn [|] bl]|]; unfold ctl_data_in; drv_unfold; inv_close.
Qed.

Lemma ctl_complete_preserves_inv (u : urb) (k : kernel) :
  session_inv k -> step_ok (ctl_complete u) k.
Proof.
  intros Hinv. destruct u as [st len buf]. inv_open k Hinv.
  destruct fc; [specialize (Hf eq_refl); subst io
               | unfold ctl_complete; cbn; inv_close].
  destruct c as [[[|] bf bl]|]; [| | exfalso; apply (Hn eq_refl); reflexivity];
    destruct rs as [|r rest];
    unfold ctl_complete; handlers_unfold; case_tests; inv_close.
Qed.

Lemma ctl_setups_ok_app (a b : list call) :
  ctl_setups_ok (a ++ b) = ctl_setups_ok a && ctl_setups_ok b.
Proof.
  induction a as [|c a IH]; [reflexivity|].
  destruct c as [| | | |[|] g [req|]| | |]; cbn; rewrite ?IH;
    try reflexivity; apply andb_assoc.
Qed.

Lemma step_ok_bind {A B} (m : M A) (f : A -> M B) (k : kernel) :
  step_ok m k ->
  (forall a k', session_inv k' -> step_ok (f a) k') ->
  step_ok (bind m f) k.
Proof.
  intros [Hi Hs] Hf. destruct (Hf (result m k) _ Hi) as [Hi' Hs'].
  unfold step_ok. rewrite exec_bind, made_bind, ctl_setups_ok_app, Hs, Hs'.
  split; [exact Hi' | reflexivity].
Qed.

Lemma step_ok_ret {A} (a : A) (k : kernel) : session_inv k -> step_ok (ret a) k.
Proof. intros H; split; [exact H | reflexivity]. Qed.

Lemma run_op_preserves_inv (o : op) (k : kernel) :
  session_inv k -> step_ok (run_op o) k.
Proof.
  intros Hinv.
  destruct o; unfold run_op, hori_reset_resume;
    try (apply step_ok_bind; [| intros; apply step_ok_ret; assumption]);
    auto using hori_open_preserves_inv, hori_close_preserves_inv,
      hori_suspend_preserves_inv, hori_resume_preserves_inv,
      hori_pre_reset_preserves_inv, hori_post_reset_preserves_inv,
      irq_complete_preserves_inv.
  apply step_ok_bind; [apply ctl_data_in_preserves_inv; assumption|].
  intros; apply ctl_complete_preserves_inv; assumption.
Qed.

Lemma run_ops_preserve_inv (os : list op) :
  forall k : kernel, session_inv k -> step_ok (run_ops os) k.
Proof.
  induction os as [|o os IH]; intros k Hinv; cbn [run_ops].
  - apply step_ok_ret, Hinv.
  - apply step_ok_bind; [apply run_op_preserves_inv, Hinv|].
    intros _ k' Hk'; apply IH, Hk'.
Qed.

(** X15. In every state a session reaches from probe, through any sequence
    of lifecycle calls and completions and whatever the submissions return,
    the request code of the setup packet, the completion handler and the
    buffer of the control URB belong to the same poll, the setup packet is
    the one of the wire protocol, and a control URB in flight has a
    handler. *)
Theorem control_urb_consistent (os : list op) (rs : list Z) :
  let k := exec (run_ops os) (boot rs) in
  ctl_consistent (dev k) = true
  /\ wire_setup (ctl_req (dev k)) = true
  /\ (ctl_in_flight k = true -> urb_ctl (dev k) <> None).
Proof.
  destruct (run_ops_preserve_inv os _ (session_inv_boot rs))
    as [(Hw & Hc & Hn & _) _].
  cbn zeta. split; [exact Hc | split; [exact Hw | exact Hn]].
Qed.

Lemma control_urb_consistent_witness :
  urb_ctl (dev (exec (run_ops [OpOpen; OpSuspend; OpResume])
                     (boot [0; 0; 0; 0]))) <> None.
Proof.
  destruct (control_urb_consistent [OpOpen; OpSuspend; OpResume] [0; 0; 0; 0])
    as (_ & _ & Hn).
  exact (Hn eq_refl).
Defined.

(** X16. No transfer is in flight on a session that is not open, in any
    state reached from probe: [hori_close] leaves none, and nothing but
    [hori_open] starts one again. *)
Theorem closed_session_is_quiet (os : list op) (rs : list Z) :
  let k := exec (run_ops os) (boot rs) in
  is_open (dev k) = false ->
  irq_in_flight k = false /\ ctl_in_flight k = false.
Proof.
  destruct (run_ops_preserve_inv os _ (session_inv_boot rs))
    as [(_ & _ & _ & Hi & Hf) _].
  cbn zeta. intros Hclosed.
  split.
  - destruct (irq_in_flight _); [| reflexivity].
    specialize (Hi eq_refl); congruence.
  - destruct (ctl_in_flight _); [| reflexivity].
    specialize (Hf eq_refl); congruence.
Qed.

Lemma closed_session_is_quiet_witness :
  irq_in_flight
    (exec (run_ops [OpOpen; OpPreReset; OpClose; OpPostReset; OpResume])
          (boot [])) = false
  /\ ctl_in_flight
       (exec (run_ops [OpOpen; OpPreReset; OpClose; OpPostReset; OpResume])
             (boot [])) = false.
Proof.
  exact (closed_session_is_quiet
           [OpOpen; OpPreReset; OpClose; OpPostReset; OpResume] []
           eq_refl).
Defined.

(** X17. Every control submission the driver ever makes carries the setup
    packet of the wire protocol: direction IN, vendor type, endpoint
    recipient, value 0, index 1, length 2 and request 0x00 or 0x01. *)
Theorem control_submissions_on_the_wire (os : list op) (rs : list Z) :
  ctl_setups_ok (made (run_ops os) (boot rs)) = true.
Proof.
  exact (proj2 (run_ops_preserve_inv os _ (session_inv_boot rs))).
Qed.


